(** * smart-store-abdellah: the analytics pipeline, embedded and verified

    The repository is a small batch pipeline over pandas tables:
    - [data_prep.py] reads the raw CSV files, cleans them through the
      [DataScrubber] class and writes the prepared files;
    - [etl_to_dw.py] reloads the prepared files into a SQLite star schema;
    - [olap/cubing.py] aggregates the fact table into a cube.

    Tables are embedded as a list of column labels and a list of rows, cells as
    a tagged union with an explicit missing marker, exceptions as values of a
    sum type, the scrubber's owned table as explicit state, the database as a
    record of tables with a durable and a pending copy.  What the host
    libraries do (pandas' element conversions and group-by, SQLite's row
    insertion) is taken through type classes, with one computable instance of
    each for the concrete runs. *)

From Stdlib Require Import List String Ascii ZArith Bool Arith Lia SpecFloat DecimalString.
Import ListNotations.
Local Open Scope string_scope.
Local Open Scope list_scope.

(* ===================================================================== *)
(** * Text: the [str] methods the code calls                              *)
(* ===================================================================== *)

Module Text.

(** [str.isspace] on one character, for the ASCII range: TAB..CR and FS..SPACE. *)
Definition is_space (c : ascii) : bool :=
  let n := nat_of_ascii c in
  (((9 <=? n) && (n <=? 13)) || ((28 <=? n) && (n <=? 32)))%nat.

Definition is_underscore (c : ascii) : bool := Ascii.eqb c "_"%char.

(** [str.lower] on one character, for the ASCII range. *)
Definition lower_char (c : ascii) : ascii :=
  let n := nat_of_ascii c in
  if ((65 <=? n) && (n <=? 90))%nat then ascii_of_nat (n + 32) else c.

Fixpoint lower (s : string) : string :=
  match s with
  | EmptyString => EmptyString
  | String c s' => String (lower_char c) (lower s')
  end.

(** [s.lstrip(chars)], the stripped set given as a predicate. *)
Fixpoint lstrip_by (p : ascii -> bool) (s : string) : string :=
  match s with
  | EmptyString => EmptyString
  | String c s' => if p c then lstrip_by p s' else s
  end.

(** [s.rstrip(chars)]: the longest suffix of stripped characters is dropped. *)
Fixpoint rstrip_by (p : ascii -> bool) (s : string) : string :=
  match s with
  | EmptyString => EmptyString
  | String c s' =>
      match rstrip_by p s' with
      | EmptyString => if p c then EmptyString else String c EmptyString
      | r => String c r
      end
  end.

(** [s.strip()] *)
Definition strip (s : string) : string := rstrip_by is_space (lstrip_by is_space s).

(** [s.replace('__', '_')]: occurrences are found left to right and do not
    overlap, so three underscores in a row leave two. *)
Fixpoint replace_double_underscore (s : string) : string :=
  match s with
  | EmptyString => EmptyString
  | String c1 s1 =>
      match s1 with
      | EmptyString => s
      | String c2 s2 =>
          if is_underscore c1 && is_underscore c2
          then String "_" (replace_double_underscore s2)
          else String c1 (replace_double_underscore s1)
      end
  end.

(** Does the text contain ['__']? *)
Fixpoint has_double_underscore (s : string) : bool :=
  match s with
  | EmptyString => false
  | String c1 s1 =>
      match s1 with
      | EmptyString => false
      | String c2 _ => (is_underscore c1 && is_underscore c2) || has_double_underscore s1
      end
  end.

(** Does the text end with a character of the set? *)
Fixpoint ends_with (p : ascii -> bool) (s : string) : bool :=
  match s with
  | EmptyString => false
  | String c EmptyString => p c
  | String _ s' => ends_with p s'
  end.

(** The first character, if any, is not one of the stripped set. *)
Definition starts_clean (p : ascii -> bool) (s : string) : bool :=
  match s with
  | EmptyString => true
  | String c _ => negb (p c)
  end.

End Text.

(* ===================================================================== *)
(** * Frames: the pandas tables the code passes around                    *)
(* ===================================================================== *)

Module Frame.

(** One cell.  [VMissing] is the missing marker (NaN / NA / NaT), kept apart
    from every domain value; a timestamp is its count of nanoseconds. *)
Inductive value : Type :=
| VMissing
| VText (s : string)
| VInt (n : Z)
| VFloat (f : spec_float)
| VBool (b : bool)
| VDateTime (ns : Z).

Definition is_missing (v : value) : bool :=
  match v with VMissing => true | _ => false end.

(** What pandas compares when it looks for duplicates.  Cells are equal as
    Python values are: [1], [1.0] and [True] are one key, and so are [0.0]
    and [-0.0]; texts are equal letter by letter, timestamps by their
    instant, and a missing cell equals a missing cell and nothing else.  A
    number is put in a form that equal numbers share: zero, or a sign, an
    odd mantissa and a binary exponent. *)
Inductive key_form : Type :=
| KMissing
| KText (s : string)
| KTime (ns : Z)
| KZero
| KNumber (negative : bool) (mantissa : positive) (exponent : Z)
| KInfinity (negative : bool)
| KNaN.

(** [m = p * 2^k] with [p] odd. *)
Fixpoint odd_part (m : positive) : positive * Z :=
  match m with
  | xO m' => let (p, k) := odd_part m' in (p, Z.succ k)
  | _ => (m, 0%Z)
  end.

(** The form of [(-1)^negative * m * 2^e]. *)
Definition number_form (negative : bool) (m : positive) (e : Z) : key_form :=
  let (p, k) := odd_part m in KNumber negative p (e + k).

Definition key_form_of (v : value) : key_form :=
  match v with
  | VMissing => KMissing
  | VText s => KText s
  | VDateTime ns => KTime ns
  | VBool true => KNumber false 1 0
  | VBool false => KZero
  | VInt Z0 => KZero
  | VInt (Zpos p) => number_form false p 0
  | VInt (Zneg p) => number_form true p 0
  | VFloat (S754_zero _) => KZero
  | VFloat (S754_infinity negative) => KInfinity negative
  | VFloat S754_nan => KNaN
  | VFloat (S754_finite negative m e) => number_form negative m e
  end.

Definition key_form_eqb (x y : key_form) : bool :=
  match x, y with
  | KMissing, KMissing => true
  | KText a, KText b => String.eqb a b
  | KTime a, KTime b => Z.eqb a b
  | KZero, KZero => true
  | KNumber s m e, KNumber s' m' e' => Bool.eqb s s' && Pos.eqb m m' && Z.eqb e e'
  | KInfinity a, KInfinity b => Bool.eqb a b
  | KNaN, KNaN => true
  | _, _ => false
  end.

Definition value_eqb (x y : value) : bool :=
  key_form_eqb (key_form_of x) (key_form_of y).

(** Rows are compared column by column, first to last. *)
Fixpoint row_eqb (r1 r2 : list value) : bool :=
  match r1, r2 with
  | [], [] => true
  | x :: r1', y :: r2' => value_eqb x y && row_eqb r1' r2'
  | _, _ => false
  end.

(** A table: the column labels in order, and the records in order, each
    holding one cell per column. *)
Record DataFrame : Type := mkDataFrame {
  columns : list string;
  rows : list (list value)
}.

(** [pd.DataFrame()] *)
Definition empty_frame : DataFrame := {| columns := []; rows := [] |}.

(** [df.empty]: some axis has length 0. *)
Definition empty (df : DataFrame) : bool :=
  match columns df, rows df with
  | [], _ => true
  | _, [] => true
  | _, _ => false
  end.

(** Every record has one cell per column. *)
Definition aligned (df : DataFrame) : Prop :=
  Forall (fun r => List.length r = List.length (columns df)) (rows df).

(** Exceptions, as values. *)
Inductive exn : Type :=
| ColumnNotFound (name : string)
| KeyError (names : list string)
| ValueError (msg : string) (names : list string)
| FileNotFoundError (path : string)
| IntegrityError (table : string)
| OtherError (msg : string).

Definition result (A : Type) : Type := (exn + A)%type.

(** [name in df.columns] *)
Definition has_column (df : DataFrame) (name : string) : bool :=
  existsb (String.eqb name) (columns df).

(** Position of the first column with that label. *)
Fixpoint index_of (name : string) (names : list string) : option nat :=
  match names with
  | [] => None
  | n :: rest =>
      if String.eqb name n then Some 0
      else option_map S (index_of name rest)
  end.

Definition cell (i : nat) (r : list value) : value := nth i r VMissing.

(** The cells of a column, top to bottom. *)
Definition column_values (df : DataFrame) (name : string) : option (list value) :=
  match index_of name (columns df) with
  | Some i => Some (map (cell i) (rows df))
  | None => None
  end.

(** A record with cell [i] rewritten by [f]; a record too short to have the
    cell is left as it is. *)
Fixpoint update_cell (f : value -> value) (i : nat) (r : list value) : list value :=
  match r, i with
  | [], _ => []
  | x :: r', 0 => f x :: r'
  | x :: r', S j => x :: update_cell f j r'
  end.

(** [df[name] = df[name].map(f)] on an existing column. *)
Definition map_column (f : value -> value) (name : string) (df : DataFrame) : DataFrame :=
  match index_of name (columns df) with
  | Some i => {| columns := columns df; rows := map (update_cell f i) (rows df) |}
  | None => df
  end.

(** Keep the first record for each key, in order: the loop of
    [drop_duplicates(keep='first')] with the keys seen so far. *)
Fixpoint keep_first {K : Type} (eqb : K -> K -> bool) (key : list value -> K)
    (seen : list K) (rs : list (list value)) : list (list value) :=
  match rs with
  | [] => []
  | r :: rest =>
      if existsb (eqb (key r)) seen
      then keep_first eqb key seen rest
      else r :: keep_first eqb key (key r :: seen) rest
  end.

(** [df.drop_duplicates(subset=[name])].  pandas returns a copy of an empty
    frame before it looks at [subset]; otherwise a label of [subset] that is
    no column raises [KeyError] with the absent labels. *)
Definition drop_duplicates_subset (name : string) (df : DataFrame) : result DataFrame :=
  if empty df then inr df
  else
    match index_of name (columns df) with
    | None => inl (KeyError [name])
    | Some i =>
        inr {| columns := columns df;
               rows := keep_first value_eqb (cell i) [] (rows df) |}
    end.

(** [df[labels]] for labels that are all columns: the columns picked in the
    order asked. *)
Definition select_columns (labels : list string) (df : DataFrame) : DataFrame :=
  let idx := map (fun l => index_of l (columns df)) labels in
  {| columns := labels;
     rows := map (fun r => map (fun oi => match oi with
                                          | Some i => cell i r
                                          | None => VMissing
                                          end) idx) (rows df) |}.

(** [mapping.get(k)] on a dict of labels kept in insertion order. *)
Fixpoint lookup (k : string) (m : list (string * string)) : option string :=
  match m with
  | [] => None
  | (k', v) :: rest => if String.eqb k k' then Some v else lookup k rest
  end.

(** [df.rename(columns=mapping)]: each label with an entry gets its new name. *)
Definition rename (mapping : list (string * string)) (df : DataFrame) : DataFrame :=
  {| columns := map (fun c => match lookup c mapping with
                              | Some c' => c'
                              | None => c
                              end) (columns df);
     rows := rows df |}.

(** Record [k] has the key of a record above it. *)
Definition earlier_key {K : Type} (eqb : K -> K -> bool) (key : list value -> K)
    (rs : list (list value)) (k : nat) : bool :=
  existsb (eqb (key (nth k rs []))) (map key (firstn k rs)).

(** The first record of each key, in order. *)
Definition first_per_key {K : Type} (eqb : K -> K -> bool) (key : list value -> K)
    (rs : list (list value)) : list (list value) :=
  map (fun k => nth k rs [])
      (filter (fun k => negb (earlier_key eqb key rs k)) (seq 0 (List.length rs))).

End Frame.

(* ===================================================================== *)
(** * olap/cubing.py                                                      *)
(* ===================================================================== *)

Module Cubing.
Import Text Frame.

(** A value of the [metrics] dict: one function name, or a list of them. *)
Inductive agg_funcs : Type :=
| AggOne (func : string)
| AggList (funcs : list string).

(** The [metrics] dict, in insertion order. *)
Definition metrics_t : Type := list (string * agg_funcs).

(** [data_df.groupby(dimensions, dropna=True).agg(metrics).reset_index()],
    pandas' part of the work. *)
Class GroupEngine : Type := {
  groupby_agg : DataFrame -> list string -> metrics_t -> result DataFrame
}.

(** [generate_column_names]: the loop appends to a copy of [dimensions], then
    every name is cleaned. *)
Definition generate_column_names (dimensions : list string) (metrics : metrics_t)
  : list string :=
  let column_names :=
    fold_left
      (fun names (item : string * agg_funcs) =>
         let (column, agg) := item in
         match agg with
         | AggList funcs =>
             fold_left (fun names func => names ++ [(column ++ "_" ++ func)%string]) funcs names
         | AggOne func => names ++ [(column ++ "_" ++ func)%string]
         end)
      metrics dimensions in
  map (fun col => rstrip_by is_underscore (replace_double_underscore col)) column_names.

(** [create_olap_cube].  A [KeyError] of the group-by is logged and raised
    again, any other exception propagates as it is; assigning [cube.columns]
    raises when the number of labels differs. *)
Definition create_olap_cube {E : GroupEngine} (data_df : DataFrame)
    (dimensions : list string) (metrics : metrics_t) : result DataFrame :=
  if empty data_df then inr empty_frame
  else
    match groupby_agg data_df dimensions metrics with
    | inl e => inl e
    | inr cube =>
        let explicit_columns := generate_column_names dimensions metrics in
        if Nat.eqb (List.length explicit_columns) (List.length (columns cube))
        then inr {| columns := explicit_columns; rows := rows cube |}
        else inl (ValueError "Length mismatch" explicit_columns)
    end.

(** ** What the claim about the cube's columns promises *)

Definition funcs_of (agg : agg_funcs) : list string :=
  match agg with AggOne f => [f] | AggList fs => fs end.

(** [<source column>_<aggregate function>] for each pair, in mapping order. *)
Definition metric_names (metrics : metrics_t) : list string :=
  flat_map (fun item : string * agg_funcs =>
              map (fun func => (fst item ++ "_" ++ func)%string) (funcs_of (snd item)))
           metrics.

Definition clean_name (col : string) : string :=
  rstrip_by is_underscore (replace_double_underscore col).

Definition is_clean (col : string) : Prop :=
  has_double_underscore col = false /\ ends_with is_underscore col = false.

(** ** A computable group-by for the concrete runs *)

Definition value_rank (v : value) : nat :=
  match v with
  | VMissing => 0 | VBool _ => 1 | VInt _ => 2 | VFloat _ => 3
  | VText _ => 4 | VDateTime _ => 5
  end.

Definition value_leb (x y : value) : bool :=
  match x, y with
  | VInt a, VInt b => Z.leb a b
  | VText a, VText b => String.leb a b
  | VDateTime a, VDateTime b => Z.leb a b
  | VBool a, VBool b => implb a b
  | _, _ => Nat.leb (value_rank x) (value_rank y)
  end.

Fixpoint key_leb (k1 k2 : list value) : bool :=
  match k1, k2 with
  | [], _ => true
  | _ :: _, [] => false
  | x :: k1', y :: k2' =>
      if value_eqb x y then key_leb k1' k2' else value_leb x y
  end.

Fixpoint insert_key (k : list value) (ks : list (list value)) : list (list value) :=
  match ks with
  | [] => [k]
  | k' :: rest => if key_leb k k' then k :: ks else k' :: insert_key k rest
  end.

Definition sort_keys (ks : list (list value)) : list (list value) :=
  fold_right insert_key [] ks.

(** The reductions the runs use: [count] of the cells present, [sum] of the
    integers. *)
Definition aggregate (func : string) (cells : list value) : value :=
  if String.eqb func "count"
  then VInt (Z.of_nat (List.length (filter (fun v => negb (is_missing v)) cells)))
  else if String.eqb func "sum"
  then VInt (fold_right (fun v acc => match v with VInt n => (n + acc)%Z | _ => acc end)
                        0%Z cells)
  else VMissing.

Definition key_of (idx : list nat) (r : list value) : list value :=
  map (fun i => cell i r) idx.

Fixpoint indices_of (labels cols : list string) : result (list nat) :=
  match labels with
  | [] => inr []
  | l :: rest =>
      match index_of l cols, indices_of rest cols with
      | None, _ => inl (KeyError [l])
      | Some _, inl e => inl e
      | Some i, inr js => inr (i :: js)
      end
  end.

Definition pairs_of (metrics : metrics_t) : list (string * string) :=
  flat_map (fun item : string * agg_funcs =>
              map (fun func => (fst item, func)) (funcs_of (snd item))) metrics.

Definition reference_groupby (df : DataFrame) (dimensions : list string)
    (metrics : metrics_t) : result DataFrame :=
  match indices_of dimensions (columns df),
        indices_of (map fst (pairs_of metrics)) (columns df) with
  | inl e, _ => inl e
  | _, inl e => inl e
  | inr didx, inr midx =>
      let kept := filter (fun r => negb (existsb is_missing (key_of didx r))) (rows df) in
      let keys := sort_keys (keep_first row_eqb (fun k => k) [] (map (key_of didx) kept)) in
      inr {| columns := dimensions ++ map fst (pairs_of metrics);
             rows := map (fun k =>
                            let group := filter (fun r => row_eqb (key_of didx r) k) kept in
                            k ++ map (fun p : nat * string =>
                                        aggregate (snd p) (map (cell (fst p)) group))
                                     (combine midx (map snd (pairs_of metrics))))
                         keys |}
  end.

#[export] Instance reference_engine : GroupEngine := {| groupby_agg := reference_groupby |}.

End Cubing.

(* ===================================================================== *)
(** * Effects: state with exceptions                                      *)
(* ===================================================================== *)

Module StateExn.
Import Frame.

(** A computation over a state [S] that returns or raises; the state reached
    when it raises is kept, as Python keeps what was mutated before. *)
Definition M (S A : Type) : Type := S -> result A * S.

Definition ret {S A : Type} (a : A) : M S A := fun s => (inr a, s).

Definition bind {S A B : Type} (m : M S A) (k : A -> M S B) : M S B :=
  fun s =>
    match m s with
    | (inr a, s') => k a s'
    | (inl e, s') => (inl e, s')
    end.

Definition raise {S A : Type} (e : exn) : M S A := fun s => (inl e, s).

Definition get {S : Type} : M S S := fun s => (inr s, s).

Definition put {S : Type} (s : S) : M S unit := fun _ => (inr tt, s).

Definition modify {S : Type} (f : S -> S) : M S unit := fun s => (inr tt, f s).

(** A pure library call that may raise. *)
Definition lift {S A : Type} (r : result A) : M S A := fun s => (r, s).

(** [try: m  except Exception as e: handler e] *)
Definition try_except {S A : Type} (m : M S A) (handler : exn -> M S A) : M S A :=
  fun s =>
    match m s with
    | (inr a, s') => (inr a, s')
    | (inl e, s') => handler e s'
    end.

End StateExn.

Declare Scope monad_scope.
Delimit Scope monad_scope with monad.
Notation "x <- m ;; k" := (StateExn.bind m (fun x => k))
  (at level 61, m at next level, right associativity) : monad_scope.
Notation "m ;;; k" := (StateExn.bind m (fun _ => k))
  (at level 61, right associativity) : monad_scope.

(* ===================================================================== *)
(** * etl_to_dw.py                                                        *)
(* ===================================================================== *)

Module EtlToDw.
Import Frame StateExn.
Local Open Scope monad_scope.

Definition row : Type := list value.

Inductive table : Type := Customer | Product | Sale.

(** SQLite's part: [INSERT INTO t VALUES (...)] of one tuple into the rows a
    table holds; [None] when the engine rejects the tuple. *)
Class SqlEngine : Type := {
  insert_row : table -> list row -> row -> option (list row)
}.

(** The three tables of the star schema; [None]: not created yet.  A table
    that is there is one [create_schema] made, with the columns of its
    [CREATE TABLE]: a database file that already holds a table of one of
    these names with other columns is not one of these. *)
Record Warehouse : Type := mkWarehouse {
  customer : option (list row);
  product : option (list row);
  sale : option (list row)
}.

Definition get_table (t : table) (w : Warehouse) : option (list row) :=
  match t with
  | Customer => customer w
  | Product => product w
  | Sale => sale w
  end.

Definition set_table (t : table) (v : option (list row)) (w : Warehouse) : Warehouse :=
  match t with
  | Customer => {| customer := v; product := product w; sale := sale w |}
  | Product => {| customer := customer w; product := v; sale := sale w |}
  | Sale => {| customer := customer w; product := product w; sale := v |}
  end.

(** The statements a cursor was given, in order. *)
Inductive stmt : Type :=
| CreateTableIfNotExists (t : table)
| DeleteFrom (t : table)
| InsertInto (t : table) (tuples : list row)
| Commit.

(** A cursor: the tables as the open connection sees them, and what it ran. *)
Record Cursor : Type := mkCursor {
  tables : Warehouse;
  executed : list stmt
}.

Definition DB (A : Type) : Type := M Cursor A.

Definition log_stmt (st : stmt) : DB unit :=
  modify (fun c => {| tables := tables c; executed := executed c ++ [st] |}).

Definition execute_create (t : table) : DB unit :=
  modify (fun c =>
            {| tables := match get_table t (tables c) with
                         | None => set_table t (Some []) (tables c)
                         | Some _ => tables c
                         end;
               executed := executed c |}) ;;;
  log_stmt (CreateTableIfNotExists t).

Definition execute_delete (t : table) : DB unit :=
  c <- get ;;
  match get_table t (tables c) with
  | None => raise (OtherError "no such table")
  | Some _ =>
      put {| tables := set_table t (Some []) (tables c); executed := executed c |} ;;;
      log_stmt (DeleteFrom t)
  end.

(** The tuples go in one by one; the first one rejected stops the statement,
    with the tuples before it in the table. *)
Fixpoint insert_all {E : SqlEngine} (t : table) (tuples : list row) (held : list row)
  : list row * bool :=
  match tuples with
  | [] => (held, true)
  | r :: rest =>
      match insert_row t held r with
      | None => (held, false)
      | Some held' => insert_all t rest held'
      end
  end.

Definition executemany_insert {E : SqlEngine} (t : table) (tuples : list row) : DB unit :=
  c <- get ;;
  match get_table t (tables c) with
  | None => raise (OtherError "no such table")
  | Some held =>
      let (held', ok) := insert_all t tuples held in
      put {| tables := set_table t (Some held') (tables c); executed := executed c |} ;;;
      if ok then log_stmt (InsertInto t tuples)
      else raise (IntegrityError "constraint failed")
  end.

(** [create_schema] *)
Definition create_schema : DB unit :=
  execute_create Customer ;;;
  execute_create Product ;;;
  execute_create Sale.

(** [delete_existing_records]: the fact table first. *)
Definition delete_existing_records : DB unit :=
  execute_delete Sale ;;;
  execute_delete Customer ;;;
  execute_delete Product.

(** The [column_mapping] dicts, warehouse column to prepared-file header. *)
Definition customer_mapping : list (string * string) :=
  [("customer_id", "CustomerID"); ("name", "Name"); ("region", "Region");
   ("join_date", "JoinDate"); ("loyalty_points", "LoyaltyPoints");
   ("preferred_contact_method", "PreferredContactMethod")].

Definition product_mapping : list (string * string) :=
  [("product_id", "productid"); ("product_name", "productname");
   ("category", "category"); ("unit_price", "unitprice");
   ("stock_quantity", "stockquantity"); ("supplier_name", "suppliername")].

Definition sale_mapping : list (string * string) :=
  [("sale_id", "TransactionID"); ("customer_id", "CustomerID");
   ("product_id", "ProductID"); ("store_id", "StoreID");
   ("campaign_id", "CampaignID"); ("sale_date", "SaleDate");
   ("sale_amount", "SaleAmount"); ("discount_percent", "DiscountPercent");
   ("payment_type", "PaymentType")].

(** [[src for src in column_mapping.values() if src not in df.columns]] *)
Definition missing_columns (column_mapping : list (string * string)) (df : DataFrame)
  : list string :=
  filter (fun src => negb (has_column df src)) (map snd column_mapping).

(** The body the three insert functions share: de-duplicate on the key,
    check the required columns, order and rename them, insert the tuples. *)
Definition ordered (column_mapping : list (string * string)) (df : DataFrame)
  : DataFrame :=
  rename (map (fun p : string * string => (snd p, fst p)) column_mapping)
         (select_columns (map snd column_mapping) df).

Definition insert_mapped {E : SqlEngine} (t : table) (key : string) (file : string)
    (column_mapping : list (string * string)) (df : DataFrame) : DB unit :=
  df <- lift (drop_duplicates_subset key df) ;;
  match missing_columns column_mapping df with
  | (_ :: _) as missing => raise (ValueError ("Missing columns in " ++ file) missing)
  | [] =>
      let ordered_df := ordered column_mapping df in
      executemany_insert t (rows ordered_df)
  end.

Definition insert_customers {E : SqlEngine} (customers_df : DataFrame) : DB unit :=
  insert_mapped Customer "CustomerID" "customers_prepared.csv" customer_mapping customers_df.

Definition insert_products {E : SqlEngine} (products_df : DataFrame) : DB unit :=
  insert_mapped Product "productid" "products_prepared.csv" product_mapping products_df.

Definition insert_sales {E : SqlEngine} (sales_df : DataFrame) : DB unit :=
  insert_mapped Sale "TransactionID" "sales_prepared.csv" sale_mapping sales_df.

(** The [try] block of [load_data_to_db] after the schema is there;
    [read_csv] says what [pd.read_csv] does on each prepared file. *)
Definition load_body {E : SqlEngine} (read_csv : string -> result DataFrame) : DB unit :=
  delete_existing_records ;;;
  customers_df <- lift (read_csv "customers_prepared.csv") ;;
  products_df <- lift (read_csv "products_prepared.csv") ;;
  sales_df <- lift (read_csv "sales_prepared.csv") ;;
  insert_customers customers_df ;;;
  insert_products products_df ;;;
  insert_sales sales_df.

(** [load_data_to_db] on the database [db]: the outcome, the statements run,
    and the database left behind.  The schema statements run before any
    transaction is open and are durable at once; the deletes and inserts are
    one transaction, made durable by [conn.commit()], the last statement of
    the [try] block, and dropped by [conn.close()] when the block raised. *)
Definition run_load {E : SqlEngine} (read_csv : string -> result DataFrame)
    (db : Warehouse) : result unit * list stmt * Warehouse :=
  let (_, cur0) := create_schema {| tables := db; executed := [] |} in
  match load_body read_csv cur0 with
  | (inr _, cur) => (inr tt, executed cur ++ [Commit], tables cur)
  | (inl e, cur) => (inl e, executed cur, tables cur0)
  end.

Definition load_data_to_db {E : SqlEngine} (read_csv : string -> result DataFrame)
    (db : Warehouse) : Warehouse :=
  snd (run_load read_csv db).

(** ** What the claims about the load speak of *)

Definition ensure (o : option (list row)) : option (list row) :=
  match o with
  | None => Some []
  | Some held => Some held
  end.

(** The database once the three [CREATE TABLE IF NOT EXISTS] have run. *)
Definition with_schema (db : Warehouse) : Warehouse :=
  {| customer := ensure (customer db);
     product := ensure (product db);
     sale := ensure (sale db) |}.

Definition cleared : Warehouse :=
  {| customer := Some []; product := Some []; sale := Some [] |}.

Definition schema_stmts : list stmt :=
  [CreateTableIfNotExists Customer; CreateTableIfNotExists Product;
   CreateTableIfNotExists Sale].

Definition delete_stmts : list stmt :=
  [DeleteFrom Sale; DeleteFrom Customer; DeleteFrom Product].

(** The cursor when the inserts start: the same whatever the database held. *)
Definition start : Cursor :=
  {| tables := cleared; executed := schema_stmts ++ delete_stmts |}.

(** [load_body] after its deletes. *)
Definition insert_phase {E : SqlEngine} (read_csv : string -> result DataFrame)
  : DB unit :=
  customers_df <- lift (read_csv "customers_prepared.csv") ;;
  products_df <- lift (read_csv "products_prepared.csv") ;;
  sales_df <- lift (read_csv "sales_prepared.csv") ;;
  insert_customers customers_df ;;;
  insert_products products_df ;;;
  insert_sales sales_df.

(** The tuples an insert function hands to [executemany]. *)
Definition prepared_tuples (key : string) (column_mapping : list (string * string))
    (df : DataFrame) : list row :=
  match drop_duplicates_subset key df with
  | inr d => rows (ordered column_mapping d)
  | inl _ => []
  end.

(** ** A computable engine for the concrete runs

    The first cell is the INTEGER PRIMARY KEY: an integer already held is
    rejected, a missing key gets the next rowid; [sale] rejects a missing
    customer or product. *)
Definition next_rowid (held : list row) : Z :=
  fold_right (fun r acc => match cell 0 r with
                           | VInt n => Z.max (n + 1) acc
                           | _ => acc
                           end) 1%Z held.

Definition reference_insert (t : table) (held : list row) (r : row) : option (list row) :=
  let not_null_ok :=
    match t with
    | Sale => negb (is_missing (cell 1 r)) && negb (is_missing (cell 2 r))
    | _ => true
    end in
  match r with
  | VInt n :: _ =>
      if existsb (fun r' => value_eqb (cell 0 r') (VInt n)) held then None
      else if not_null_ok then Some (held ++ [r]) else None
  | VMissing :: rest =>
      if not_null_ok then Some (held ++ [VInt (next_rowid held) :: rest]) else None
  | _ => None
  end.

#[export] Instance reference_sql : SqlEngine := {| insert_row := reference_insert |}.

End EtlToDw.

(* ===================================================================== *)
(** * data_prep.py                                                        *)
(* ===================================================================== *)

Module DataPrep.
Import Frame StateExn.
Local Open Scope monad_scope.

Inductive level : Type := INFO | ERROR.

(** What the run leaves behind: the prepared files written, oldest first, and
    the log lines. *)
Record World : Type := mkWorld {
  written : list (string * DataFrame);
  log : list (level * string)
}.

(** The file system as the run meets it: what [pd.read_csv] does on a path,
    whether creating the prepared directory raises, whether [to_csv] raises
    on a file name. *)
Record Env : Type := mkEnv {
  read_csv : string -> result DataFrame;
  mkdir : option exn;
  to_csv : string -> option exn
}.

Definition IO (A : Type) : Type := M World A.

Definition logger (l : level) (msg : string) : IO unit :=
  modify (fun w => {| written := written w; log := log w ++ [(l, msg)] |}).

Definition RAW_DATA_DIR : string := "data/raw/".

(** [read_data]: both handlers return [pd.DataFrame()]. *)
Definition read_data (env : Env) (path : string) : IO DataFrame :=
  try_except
    (logger INFO ("Reading raw data from " ++ path) ;;;
     df <- lift (read_csv env path) ;;
     logger INFO (path ++ ": loaded DataFrame") ;;;
     ret df)
    (fun e =>
       match e with
       | FileNotFoundError _ =>
           logger ERROR ("File not found: " ++ path) ;;; ret empty_frame
       | _ =>
           logger ERROR ("Error reading " ++ path) ;;; ret empty_frame
       end).

(** [save_prepared_data]: the directory is made outside the [try]. *)
Definition save_prepared_data (env : Env) (df : DataFrame) (filename : string) : IO unit :=
  match mkdir env with
  | Some e => raise e
  | None =>
      try_except
        (match to_csv env filename with
         | Some e => raise e
         | None =>
             modify (fun w => {| written := written w ++ [(filename, df)]; log := log w |}) ;;;
             logger INFO ("Successfully saved prepared data to " ++ filename)
         end)
        (fun _ => logger ERROR ("Error saving data to " ++ filename))
  end.

(** One entry of [files_to_process]: raw file, prepared file, cleaner. *)
Definition entry : Type := (string * string * (DataFrame -> IO DataFrame))%type.

(** The [for] loop of [main]. *)
Fixpoint process_files (env : Env) (files : list entry) : IO unit :=
  match files with
  | [] => ret tt
  | (raw_filename, prepared_filename, clean_function) :: rest =>
      df_raw <- read_data env (RAW_DATA_DIR ++ raw_filename) ;;
      (if negb (empty df_raw)
       then df_cleaned <- clean_function df_raw ;;
            save_prepared_data env df_cleaned prepared_filename
       else ret tt) ;;;
      process_files env rest
  end.

Section Main.
(** The three cleaners drive the scrubber; [main] only calls them. *)
Variables clean_customer_data clean_product_data clean_sales_data : DataFrame -> IO DataFrame.

Definition files_to_process : list entry :=
  [("customers_data.csv", "customers_prepared.csv", clean_customer_data);
   ("products_data.csv", "products_prepared.csv", clean_product_data);
   ("sales_data.csv", "sales_prepared.csv", clean_sales_data)].

Definition main (env : Env) : IO unit :=
  logger INFO "Starting comprehensive data preparation using DataScrubber..." ;;;
  process_files env files_to_process ;;;
  logger INFO "All data preparation complete. Files are ready in data/prepared.".

End Main.

End DataPrep.

(* ===================================================================== *)
(** * utils/data_scrubber.py: the DataScrubber class                      *)
(* ===================================================================== *)

(** The class is imported by [data_prep.py] and exercised by
    [tests/test_data_scrubber.py]; its own file is not among the sources.
    Method names and signatures are the ones the tests call; what each
    method does is taken from the specification's operation contracts.

    Only the first three operations are modelled.  For the date parsing and
    the type conversion the callers in the sources record the methods
    raising on data that the contracts say they turn into the missing marker
    ([data_prep.py], lines 97, 149-155, 169 and 172;
    [tests/test_data_scrubber.py], lines 75-78 and 99-101), so a model of
    those contracts would not be a model of the class. *)

Module Scrubber.
Import Text Frame StateExn.
Local Open Scope monad_scope.

(** Modelled from the spec: the element conversion the missing class leaves
    to its host library, which the spec names without defining it
    ("converted to text"): [render] is the text of a present value that is
    no text yet. *)
Class Conversions : Type := {
  render : value -> string
}.

(** Modelled from the spec: the scrubber owns one table (section 3,
    lifecycle); the class definition is missing. *)
Record DataScrubber : Type := mkScrubber { df : DataFrame }.

Definition Scrub (A : Type) : Type := M DataScrubber A.

(** Modelled from the spec: "every cleaning operation mutates the owned table
    in place and also returns it" (section 3); the class is missing. *)
Definition update_df (f : DataFrame -> DataFrame) : Scrub DataFrame :=
  s <- get ;;
  put {| df := f (df s) |} ;;;
  ret (f (df s)).

(** Modelled from the spec: operation 1, "a row is a duplicate if all column
    values equal a previously seen row ...; the first occurrence is kept";
    the method body is missing. *)
Definition remove_duplicate_records : Scrub DataFrame :=
  update_df (fun d => {| columns := columns d;
                         rows := keep_first row_eqb (fun r => r) [] (rows d) |}).

(** Modelled from the spec: the record test of drop mode, "at least one
    missing entry in any column"; the method body is missing. *)
Definition has_missing (r : list value) : bool := existsb is_missing r.

(** Modelled from the spec: the cell rule of fill mode, "every missing entry
    ... is replaced by fill_value"; the method body is missing. *)
Definition fill_cell (fill_value v : value) : value :=
  if is_missing v then fill_value else v.

(** Modelled from the spec: operation 2, "drop takes priority if true, else
    fill, else neither is a no-op"; the method body is missing.  An absent
    [fill_value] is [None]. *)
Definition handle_missing_data (fill_value : option value) (drop : bool)
  : Scrub DataFrame :=
  if drop
  then update_df (fun d => {| columns := columns d;
                              rows := filter (fun r => negb (has_missing r)) (rows d) |})
  else
    match fill_value with
    | Some v => update_df (fun d => {| columns := columns d;
                                       rows := map (map (fill_cell v)) (rows d) |})
    | None => update_df (fun d => d)
    end.

(** Modelled from the spec: "converted to text"; a text is its own text. *)
Definition to_text {C : Conversions} (v : value) : string :=
  match v with
  | VText s => s
  | _ => render v
  end.

(** Modelled from the spec: the cell rule of operation 3, "converted to
    text, have leading/trailing whitespace removed, and case-folded to
    lower-case.  Missing values are left untouched"; the method body is
    missing. *)
Definition normalize_cell {C : Conversions} (v : value) : value :=
  match v with
  | VMissing => VMissing
  | _ => VText (lower (strip (to_text v)))
  end.

(** Modelled from the spec: operation 3, with its precondition "column must
    exist -- failure (ColumnNotFound) if absent"; the method body is
    missing. *)
Definition format_column_strings_to_lower_and_trim {C : Conversions} (column : string)
  : Scrub DataFrame :=
  s <- get ;;
  if has_column (df s) column
  then update_df (map_column normalize_cell column)
  else raise (ColumnNotFound column).

(** ** What the claims about the operations speak of *)

(** Record [k] equals, in every column, a record above it. *)
Definition earlier_equal (rs : list (list value)) (k : nat) : bool :=
  existsb (row_eqb (nth k rs [])) (firstn k rs).

(** The positions of the strict duplicates, and of the other records. *)
Definition strict_duplicates (rs : list (list value)) : list nat :=
  filter (earlier_equal rs) (seq 0 (List.length rs)).

Definition survivors (rs : list (list value)) : list nat :=
  filter (fun k => negb (earlier_equal rs k)) (seq 0 (List.length rs)).

(** ** Conversions for the concrete runs

    An integer renders as its decimal digits, a truth value as Python
    prints it; this instance knows no other text. *)
Definition reference_render (v : value) : string :=
  match v with
  | VText s => s
  | VInt n => DecimalString.NilZero.string_of_int (Z.to_int n)
  | VBool true => "True"
  | VBool false => "False"
  | _ => ""
  end.

#[export] Instance reference_conversions : Conversions :=
  {| render := reference_render |}.

End Scrubber.

(* ===================================================================== *)
(** * Tables and files for the concrete runs                              *)
(* ===================================================================== *)

Module Runs.
Import Frame EtlToDw DataPrep.

(** The table of the unit tests: eight records, the fifth repeats the first. *)
Definition f64 (m : positive) (e : Z) : value := VFloat (S754_finite false m e).

Definition raw_df : DataFrame :=
  {| columns := ["ID"; "Name"; "Amount"; "Date"; "Status"];
     rows :=
       [ [VInt 1; VText "alice"; f64 201 (-1); VText "2023-01-01"; VText "Active"];
         [VInt 2; VText "Bob"; VText "200,5"; VText "2023/01/02"; VText " ACTIVE "];
         [VInt 3; VText "charlie "; f64 300 0; VText "03-01-2023"; VText "Inactive"];
         [VInt 4; VText "David"; VMissing; VText "04/Jan/2023"; VText "Inactive"];
         [VInt 1; VText "alice"; f64 201 (-1); VText "2023-01-01"; VText "Active"];
         [VInt 5; VMissing; f64 50 0; VText "2023-01-06"; VText "Active"];
         [VInt 6; VText "Eve"; f64 600 0; VText "2023-01-07"; VText "Active"];
         [VInt 7; VText "Frank"; f64 700 0; VText "2023-01-08"; VText "ACTIVE"] ] |}.

(** A one-record frame keyed by a column whose label has a double underscore. *)
Definition store_sales : DataFrame :=
  {| columns := ["store__id"; "amount"];
     rows := [[VText "s1"; VInt 5]] |}.

(** A prepared file that kept only the [Name] column. *)
Definition names_only : DataFrame :=
  {| columns := ["Name"]; rows := [[VText "Ann"]] |}.

(** Three prepared files; customer 1 comes twice. *)
Definition customers_csv : DataFrame :=
  {| columns := ["CustomerID"; "Name"; "Region"; "JoinDate"; "LoyaltyPoints";
                 "PreferredContactMethod"];
     rows := [ [VInt 1; VText "ann"; VText "east"; VText "2023-01-01"; VInt 10; VText "email"];
               [VInt 2; VText "bob"; VText "west"; VText "2023-02-01"; VInt 20; VText "text"];
               [VInt 1; VText "ann b"; VText "east"; VText "2023-03-01"; VInt 30; VText "email"] ] |}.

Definition products_csv : DataFrame :=
  {| columns := ["productid"; "productname"; "category"; "unitprice"; "stockquantity";
                 "suppliername"];
     rows := [ [VInt 101; VText "Laptop"; VText "electronics"; VInt 800; VInt 5; VText "Acme"] ] |}.

Definition sales_csv : DataFrame :=
  {| columns := ["TransactionID"; "SaleDate"; "CustomerID"; "ProductID"; "StoreID";
                 "CampaignID"; "SaleAmount"; "DiscountPercent"; "PaymentType"];
     rows := [ [VInt 550; VText "2024-01-06"; VInt 1; VInt 101; VInt 404; VInt 0;
                VInt 800; VInt 0; VText "card"] ] |}.

Definition prepared_files (path : string) : result DataFrame :=
  if String.eqb path "customers_prepared.csv" then inr customers_csv
  else if String.eqb path "products_prepared.csv" then inr products_csv
  else if String.eqb path "sales_prepared.csv" then inr sales_csv
  else inl (FileNotFoundError path).

Definition fresh_db : Warehouse := {| customer := None; product := None; sale := None |}.

(** A raw directory where only the products file is there. *)
Definition only_products : Env :=
  {| read_csv := fun path =>
       if String.eqb path "data/raw/products_data.csv"
       then inr {| columns := ["productid"]; rows := [[VInt 101]] |}
       else inl (FileNotFoundError path);
     mkdir := None;
     to_csv := fun _ => None |}.

End Runs.

(* ===================================================================== *)
(** * More of pandas: whole-record de-duplication, dropna, comparisons    *)
(* ===================================================================== *)

Module FrameOps.
Import Frame.

(** [df.drop_duplicates()]: an empty frame comes back as it is, otherwise the
    first of each run of equal records is kept. *)
Definition drop_duplicates (df : DataFrame) : DataFrame :=
  if empty df then df
  else {| columns := columns df;
          rows := keep_first row_eqb (fun r => r) [] (rows df) |}.

(** [df.dropna(subset=[name])] on an existing column at position [i]. *)
Definition dropna_at (i : nat) (df : DataFrame) : DataFrame :=
  {| columns := columns df;
     rows := filter (fun r => negb (is_missing (cell i r))) (rows df) |}.

(** The comparisons with the integer 0 the code writes. *)
Inductive against_zero : Type := Gt0 | Ge0 | Lt0.

Definition compare_Z (op : against_zero) (n : Z) : bool :=
  match op with
  | Gt0 => Z.ltb 0 n
  | Ge0 => Z.leb 0 n
  | Lt0 => Z.ltb n 0
  end.

(** A binary64 against 0: the class and the sign decide, NaN compares false
    and both zeros equal 0. *)
Definition compare_float (op : against_zero) (f : spec_float) : bool :=
  match f, op with
  | S754_nan, _ => false
  | S754_zero _, Ge0 => true
  | S754_zero _, _ => false
  | S754_infinity s, Lt0 => s
  | S754_infinity s, _ => negb s
  | S754_finite s _ _, Lt0 => s
  | S754_finite s _ _, _ => negb s
  end.

(** One cell against 0: a missing cell compares false, a text or a timestamp
    makes the comparison raise [TypeError]. *)
Definition compare_cell (op : against_zero) (v : value) : result bool :=
  match v with
  | VMissing => inr false
  | VInt n => inr (compare_Z op n)
  | VFloat f => inr (compare_float op f)
  | VBool b => inr (compare_Z op (if b then 1 else 0)%Z)
  | VText _ => inl (OtherError "TypeError: not supported between instances of 'str' and 'int'")
  | VDateTime _ => inl (OtherError "TypeError: invalid comparison between datetime and int")
  end.

(** [df[name] op 0] for the column at position [i]: the mask, one flag per
    record; the first cell that cannot be compared raises. *)
Fixpoint mask_at (op : against_zero) (i : nat) (rs : list (list value))
  : result (list bool) :=
  match rs with
  | [] => inr []
  | r :: rest =>
      match compare_cell op (cell i r) with
      | inl e => inl e
      | inr b =>
          match mask_at op i rest with
          | inl e => inl e
          | inr bs => inr (b :: bs)
          end
      end
  end.

(** [rows[mask]] *)
Fixpoint select_mask (bs : list bool) (rs : list (list value)) : list (list value) :=
  match bs, rs with
  | b :: bs', r :: rs' => if b then r :: select_mask bs' rs' else select_mask bs' rs'
  | _, _ => []
  end.

(** [df[df[name] op 0]] for the column at position [i]. *)
Definition filter_against_zero (op : against_zero) (i : nat) (df : DataFrame)
  : result DataFrame :=
  match mask_at op i (rows df) with
  | inl e => inl e
  | inr bs => inr {| columns := columns df; rows := select_mask bs (rows df) |}
  end.

End FrameOps.

(* ===================================================================== *)
(** * data_preparation/prepare_sales_data.py                              *)
(* ===================================================================== *)

Module PrepareSales.
Import Frame FrameOps.

(** [remove_duplicates]: on [TransactionID] when the column is there, on
    whole records otherwise. *)
Definition remove_duplicates (df : DataFrame) : result DataFrame :=
  if has_column df "TransactionID"
  then drop_duplicates_subset "TransactionID" df
  else inr (drop_duplicates df).

End PrepareSales.

(* ===================================================================== *)
(** * data_preparation/prepare_products_data.py                           *)
(* ===================================================================== *)

Module PrepareProducts.
Import Frame FrameOps.

(** [remove_duplicates]: on [productid], then on whole records. *)
Definition remove_duplicates (df : DataFrame) : result DataFrame :=
  match drop_duplicates_subset "productid" df with
  | inl e => inl e
  | inr df1 => inr (drop_duplicates df1)
  end.

(** One of the two blocks of [validate_data] on a price or a quantity: the
    count of negative cells is taken for the log, then the records with a
    cell that is not [>= 0] go. *)
Definition keep_non_negative (name : string) (df : DataFrame) : result DataFrame :=
  match index_of name (columns df) with
  | None => inr df
  | Some i =>
      match mask_at Lt0 i (rows df) with
      | inl e => inl e
      | inr _ => filter_against_zero Ge0 i df
      end
  end.

(** [validate_data] *)
Definition validate_data (df : DataFrame) : result DataFrame :=
  let checked :=
    match index_of "productid" (columns df) with
    | None => inr df
    | Some i =>
        match filter_against_zero Gt0 i (dropna_at i df) with
        | inl e => inl e
        | inr positive => drop_duplicates_subset "productid" positive
        end
    end in
  match checked with
  | inl e => inl e
  | inr df1 =>
      match keep_non_negative "unitprice" df1 with
      | inl e => inl e
      | inr df2 => keep_non_negative "stockquantity" df2
      end
  end.

End PrepareProducts.

(* ===================================================================== *)
(** * Words for the statements that follow                                *)
(* ===================================================================== *)

Module Statements.
Import Frame FrameOps EtlToDw DataPrep.

(** The cell of a record under a column label. *)
Definition field (cols : list string) (r : list value) (name : string) : value :=
  match index_of name cols with
  | Some i => cell i r
  | None => VMissing
  end.

(** The cells of a record under a list of labels, in the order of the list. *)
Definition tuple_of (cols labels : list string) (r : list value) : list value :=
  map (field cols r) labels.

(** An insert function that returns has handed to one [executemany], on
    table [t], the tuples of the first record of each [key], each tuple the
    cells under the mapped source columns in the mapping's order. *)
Definition inserts_mapped_tuples {E : SqlEngine} (insert : DataFrame -> DB unit)
    (t : table) (key : string) (column_mapping : list (string * string)) : Prop :=
  forall df cur cur' u,
    insert df cur = (inr u, cur') ->
    exists i,
      index_of key (columns df) = Some i
      /\ executed cur'
         = executed cur
           ++ [InsertInto t (map (tuple_of (columns df) (map snd column_mapping))
                                 (first_per_key value_eqb (cell i) (rows df)))].

(** An insert function that returns has handed over tuples of [n] cells
    whose first cells are pairwise different. *)
Definition inserts_distinct_keys {E : SqlEngine} (insert : DataFrame -> DB unit)
    (t : table) (n : nat) : Prop :=
  forall df cur cur' u,
    insert df cur = (inr u, cur') ->
    exists tuples,
      executed cur' = executed cur ++ [InsertInto t tuples]
      /\ Forall (fun r => List.length r = n) tuples
      /\ NoDup (map (cell 0) tuples).

(** An insert function that meets absent required columns, on a frame that
    is empty or has the key column, raises the [ValueError] that lists all
    of them and leaves the cursor alone. *)
Definition reports_all_missing {E : SqlEngine} (insert : DataFrame -> DB unit)
    (key file : string) (column_mapping : list (string * string)) : Prop :=
  forall df cur,
    empty df = true \/ In key (columns df) ->
    missing_columns column_mapping df <> [] ->
    insert df cur
    = (inl (ValueError ("Missing columns in " ++ file)
                       (missing_columns column_mapping df)), cur).

(** An insert function given a frame with every required column and no
    record runs its [executemany] over no tuple: it returns, and every
    table holds what it held. *)
Definition accepts_header_only {E : SqlEngine} (insert : DataFrame -> DB unit)
    (t : table) (column_mapping : list (string * string)) : Prop :=
  forall df cur held,
    rows df = [] ->
    missing_columns column_mapping df = [] ->
    get_table t (tables cur) = Some held ->
    exists cur',
      insert df cur = (inr tt, cur')
      /\ (forall t', get_table t' (tables cur') = get_table t' (tables cur))
      /\ executed cur' = executed cur ++ [InsertInto t []].

(** A cell compares true against 0. *)
Definition holds (op : against_zero) (v : value) : Prop := compare_cell op v = inr true.

(** The flag of a record in the mask of a comparison that does not raise. *)
Definition passes (op : against_zero) (i : nat) (r : list value) : bool :=
  match compare_cell op (cell i r) with
  | inr b => b
  | inl _ => false
  end.

(** [l1] is [l2] with some elements left out. *)
Inductive subseq {A : Type} : list A -> list A -> Prop :=
| subseq_nil : subseq [] []
| subseq_skip : forall x l1 l2, subseq l1 l2 -> subseq l1 (x :: l2)
| subseq_take : forall x l1 l2, subseq l1 l2 -> subseq (x :: l1) (x :: l2).

(** The prepared file name of an entry of [files_to_process]. *)
Definition prepared_name (e : entry) : string := snd (fst e).

(** A cleaner that writes no file. *)
Definition writes_nothing (clean : DataFrame -> IO DataFrame) : Prop :=
  forall df w, written (snd (clean df w)) = written w.

(** The cleaner of an entry returns on what the run hands it: when the raw
    file of the entry reads as a frame with records, the cleaner returns on
    that frame.  Nothing is asked of it on any other frame. *)
Definition cleans_its_file (env : Env) (e : entry) : Prop :=
  forall df,
    read_csv env (RAW_DATA_DIR ++ fst (fst e)) = inr df ->
    empty df = false ->
    forall w, exists cleaned w', snd e df w = (inr cleaned, w').

(** The exception of the first file, in the order given, that cannot be
    read. *)
Fixpoint first_unreadable (read_csv : string -> result DataFrame) (paths : list string)
  : option exn :=
  match paths with
  | [] => None
  | path :: rest =>
      match read_csv path with
      | inl e => Some e
      | inr _ => first_unreadable read_csv rest
      end
  end.

End Statements.

(* ===================================================================== *)
(** * More tables and files for the concrete runs                         *)
(* ===================================================================== *)

Module MoreRuns.
Import Frame FrameOps EtlToDw DataPrep StateExn.

(** A warehouse that holds one customer and no other table. *)
Definition one_customer_db : Warehouse :=
  {| customer := Some [[VInt 9; VText "zoe"; VText "north"; VText "2022-05-05";
                        VInt 1; VText "email"]];
     product := None;
     sale := None |}.

(** A prepared directory with no file in it. *)
Definition no_files (path : string) : result DataFrame := inl (FileNotFoundError path).

(** A prepared directory where the customers file is there, the products
    file is locked and the sales file is not there. *)
Definition customers_only (path : string) : result DataFrame :=
  if String.eqb path "customers_prepared.csv" then inr Runs.customers_csv
  else if String.eqb path "products_prepared.csv" then inl (OtherError "Permission denied")
  else inl (FileNotFoundError path).

(** A products frame: a repeated id, a missing id, a negative id, a negative
    price. *)
Definition products_raw : DataFrame :=
  {| columns := ["productid"; "productname"; "unitprice"; "stockquantity"];
     rows := [ [VInt 101; VText "laptop"; VInt 800; VInt 5];
               [VInt 101; VText "laptop b"; VInt 900; VInt 2];
               [VMissing; VText "ghost"; VInt 10; VInt 1];
               [VInt (-3); VText "minus"; VInt 10; VInt 1];
               [VInt 102; VText "pen"; VInt (-1); VInt 7];
               [VInt 103; VText "cup"; VInt 4; VInt 0] ] |}.

(** A products frame whose ids are product codes. *)
Definition coded_products : DataFrame :=
  {| columns := ["productid"; "unitprice"];
     rows := [ [VText "P101"; VInt 800] ] |}.

(** A sales frame with a repeated transaction. *)
Definition sales_raw : DataFrame :=
  {| columns := ["TransactionID"; "SaleAmount"];
     rows := [ [VInt 550; VInt 10]; [VInt 551; VInt 20]; [VInt 550; VInt 30] ] |}.

(** A raw directory with the three files, and cleaners: one that hands the
    frame back, one that raises. *)
Definition all_raw : Env :=
  {| read_csv := fun _ => inr sales_raw;
     mkdir := None;
     to_csv := fun _ => None |}.

Definition clean_id (df : DataFrame) : IO DataFrame := ret df.

Definition clean_fails (df : DataFrame) : IO DataFrame := raise (KeyError ["JoinDate"]).

Definition new_world : World := {| written := []; log := [] |}.

(** A raw directory with no customers file, a products file that holds its
    header only, and a sales file whose prepared file cannot be written. *)
Definition rough_raw : Env :=
  {| read_csv := fun path =>
       if String.eqb path "data/raw/customers_data.csv" then inl (FileNotFoundError path)
       else if String.eqb path "data/raw/products_data.csv"
            then inr {| columns := columns products_raw; rows := [] |}
            else inr sales_raw;
     mkdir := None;
     to_csv := fun filename =>
       if String.eqb filename "sales_prepared.csv" then Some (OtherError "disk full")
       else None |}.

(** Transaction ids that are one key under different writings: the two
    zeros, and the integer, the floats and the truth value of one. *)
Definition zero_keys : DataFrame :=
  {| columns := ["TransactionID"];
     rows := [ [VFloat (S754_zero false)]; [VFloat (S754_zero true)];
               [VFloat (S754_finite false 3 (-1))];
               [VInt 1]; [VFloat (S754_finite false 1 0)]; [VBool true];
               [VFloat (S754_finite false 4 (-2))] ] |}.

End MoreRuns.

(* ===================================================================== *)
(** * Facts about the text functions                                      *)
(* ===================================================================== *)

Module TextFacts.
Import Text.

Lemma is_space_lower_char (c : ascii) : is_space (lower_char c) = is_space c.
Proof. destruct c as [[] [] [] [] [] [] [] []]; reflexivity. Qed.

Lemma lower_char_idem (c : ascii) : lower_char (lower_char c) = lower_char c.
Proof. destruct c as [[] [] [] [] [] [] [] []]; reflexivity. Qed.

Lemma lower_idem (s : string) : lower (lower s) = lower s.
Proof.
  induction s as [|c s IH]; simpl; [reflexivity|].
  now rewrite lower_char_idem, IH.
Qed.

Lemma lstrip_lower (s : string) :
  lstrip_by is_space (lower s) = lower (lstrip_by is_space s).
Proof.
  induction s as [|c s IH]; simpl; [reflexivity|].
  rewrite is_space_lower_char.
  destruct (is_space c); [exact IH | reflexivity].
Qed.

Lemma rstrip_lower (s : string) :
  rstrip_by is_space (lower s) = lower (rstrip_by is_space s).
Proof.
  induction s as [|c s IH]; simpl; [reflexivity|].
  rewrite IH, is_space_lower_char.
  destruct (rstrip_by is_space s) as [|d r]; simpl.
  - destruct (is_space c); reflexivity.
  - reflexivity.
Qed.

Lemma strip_lower (s : string) : strip (lower s) = lower (strip s).
Proof. unfold strip. now rewrite lstrip_lower, rstrip_lower. Qed.

Lemma lstrip_starts_clean p (s : string) : starts_clean p (lstrip_by p s) = true.
Proof.
  induction s as [|c s IH]; simpl; [reflexivity|].
  destruct (p c) eqn:Hc; [exact IH|]. simpl. now rewrite Hc.
Qed.

Lemma lstrip_clean_id p (s : string) : starts_clean p s = true -> lstrip_by p s = s.
Proof.
  destruct s as [|c s]; simpl; [reflexivity|].
  destruct (p c); [discriminate | reflexivity].
Qed.

Lemma rstrip_keeps_clean_start p (s : string) :
  starts_clean p s = true -> starts_clean p (rstrip_by p s) = true.
Proof.
  destruct s as [|c s]; simpl; [reflexivity|].
  intros Hc. destruct (rstrip_by p s); simpl.
  - destruct (p c) eqn:E; [discriminate | simpl; now rewrite E].
  - exact Hc.
Qed.

Lemma rstrip_idem p (s : string) : rstrip_by p (rstrip_by p s) = rstrip_by p s.
Proof.
  induction s as [|c s IH]; simpl; [reflexivity|].
  destruct (rstrip_by p s) as [|d r] eqn:Hr.
  - destruct (p c) eqn:Hc; simpl; [reflexivity | now rewrite Hc].
  - change (rstrip_by p (String c (String d r))) with
      (match rstrip_by p (String d r) with
       | EmptyString => if p c then EmptyString else String c EmptyString
       | r' => String c r'
       end).
    now rewrite IH.
Qed.

Lemma strip_idem (s : string) : strip (strip s) = strip s.
Proof.
  unfold strip.
  rewrite (lstrip_clean_id is_space (rstrip_by is_space (lstrip_by is_space s))).
  - apply rstrip_idem.
  - apply rstrip_keeps_clean_start, lstrip_starts_clean.
Qed.

(** Trimming and folding a text that was trimmed and folded changes nothing. *)
Lemma lower_strip_idem (s : string) :
  lower (strip (lower (strip s))) = lower (strip s).
Proof. now rewrite strip_lower, strip_idem, lower_idem. Qed.

Lemma rstrip_no_suffix p (s : string) : ends_with p s = false -> rstrip_by p s = s.
Proof.
  induction s as [|c s IH]; simpl; [reflexivity|].
  destruct s as [|d s'].
  - simpl. intros ->. reflexivity.
  - intros H. rewrite (IH H). reflexivity.
Qed.

Lemma replace_no_double (s : string) :
  has_double_underscore s = false -> replace_double_underscore s = s.
Proof.
  induction s as [|c s IH]; [reflexivity|].
  destruct s as [|d s']; [reflexivity|].
  intros H.
  change (has_double_underscore (String c (String d s')))
    with ((is_underscore c && is_underscore d) || has_double_underscore (String d s')) in H.
  apply orb_false_iff in H. destruct H as [Hcd Hrest].
  change (replace_double_underscore (String c (String d s')))
    with (if is_underscore c && is_underscore d
          then String "_" (replace_double_underscore s')
          else String c (replace_double_underscore (String d s'))).
  rewrite Hcd. now rewrite (IH Hrest).
Qed.

End TextFacts.

(* ===================================================================== *)
(** * The cube's column names                                             *)
(* ===================================================================== *)

Section CubeColumns.
Import Text Frame Cubing Runs.

(** The inner loop appends one name per function. *)
Lemma inner_loop_appends (column : string) (funcs : list string) :
  forall names,
    fold_left (fun names func => names ++ [(column ++ "_" ++ func)%string]) funcs names
    = names ++ map (fun func => (column ++ "_" ++ func)%string) funcs.
Proof.
  induction funcs as [|f funcs IH]; intros names; simpl.
  - now rewrite app_nil_r.
  - rewrite IH, <- app_assoc. reflexivity.
Qed.

(** The loops of [generate_column_names] build the dimensions followed by
    the names of the pairs; the last line cleans each of them. *)
Lemma generate_column_names_spec (dimensions : list string) (metrics : metrics_t) :
  generate_column_names dimensions metrics
  = map clean_name (dimensions ++ metric_names metrics).
Proof.
  unfold generate_column_names. fold clean_name.
  change (fun col : string => rstrip_by is_underscore (replace_double_underscore col))
    with clean_name.
  f_equal. revert dimensions.
  induction metrics as [|[column agg] metrics IH]; intros names; simpl.
  - now rewrite app_nil_r.
  - rewrite IH. unfold metric_names. simpl. rewrite app_assoc. f_equal.
    destruct agg as [func | funcs]; simpl.
    + reflexivity.
    + apply inner_loop_appends.
Qed.

Lemma clean_name_id (col : string) : is_clean col -> clean_name col = col.
Proof.
  intros [Hd He]. unfold clean_name.
  rewrite (TextFacts.replace_no_double col Hd).
  now apply TextFacts.rstrip_no_suffix.
Qed.

Lemma map_clean_id (names : list string) :
  Forall is_clean names -> map clean_name names = names.
Proof.
  induction 1 as [|n names Hn _ IH]; simpl; [reflexivity|].
  now rewrite (clean_name_id n Hn), IH.
Qed.

(** C9, as amended.  Whatever the group-by engine, a cube returned for a
    non-empty frame has as columns the dimension names followed by one
    [<column>_<function>] per pair of the mapping, in order, each name
    (the dimension names too) with its double underscores collapsed and its
    trailing underscores stripped; when every name is free of both, the
    columns are that list itself. *)
Theorem create_olap_cube_columns (E : GroupEngine) (data_df : DataFrame)
    (dimensions : list string) (metrics : metrics_t) (cube : DataFrame) :
  empty data_df = false ->
  create_olap_cube data_df dimensions metrics = inr cube ->
  columns cube = map clean_name (dimensions ++ metric_names metrics)
  /\ (Forall is_clean (dimensions ++ metric_names metrics) ->
      columns cube = dimensions ++ metric_names metrics).
Proof.
  intros Hne Hrun. unfold create_olap_cube in Hrun. rewrite Hne in Hrun.
  destruct (groupby_agg data_df dimensions metrics) as [e | grouped]; [discriminate|].
  destruct (Nat.eqb _ _); [|discriminate].
  injection Hrun as <-. simpl.
  rewrite generate_column_names_spec.
  split; [reflexivity | apply map_clean_id].
Qed.

Lemma create_olap_cube_columns_witness :
  empty store_sales = false
  /\ columns {| columns := ["store_id"; "amount_sum"]; rows := [[VText "s1"; VInt 5]] |}
     = map clean_name (["store__id"] ++ metric_names [("amount", AggOne "sum")]).
Proof.
  split; [reflexivity|].
  apply (create_olap_cube_columns reference_engine store_sales
           ["store__id"] [("amount", AggOne "sum")]); reflexivity.
Defined.

(** C9 as stated fails: the dimension [store__id] comes back as [store_id]. *)
Lemma create_olap_cube_renames_dimension :
  exists cube,
    empty store_sales = false
    /\ create_olap_cube store_sales ["store__id"] [("amount", AggOne "sum")] = inr cube
    /\ columns cube <> ["store__id"] ++ metric_names [("amount", AggOne "sum")].
Proof.
  eexists. split; [reflexivity|]. split; [reflexivity|]. discriminate.
Qed.

End CubeColumns.

(* ===================================================================== *)
(** * Facts about frames                                                  *)
(* ===================================================================== *)

Module FrameFacts.
Import Frame.

Lemma key_form_eqb_eq (x y : key_form) : key_form_eqb x y = true <-> x = y.
Proof.
  destruct x, y; simpl; try (split; [discriminate | congruence]);
    try (split; reflexivity).
  - rewrite String.eqb_eq. split; congruence.
  - rewrite Z.eqb_eq. split; congruence.
  - rewrite !andb_true_iff, Bool.eqb_true_iff, Pos.eqb_eq, Z.eqb_eq.
    split; [intros [[-> ->] ->]; reflexivity | intros H; injection H; auto].
  - rewrite Bool.eqb_true_iff. split; congruence.
Qed.

(** Two cells are one key exactly when they have the same form. *)
Lemma value_eqb_form (x y : value) :
  value_eqb x y = true <-> key_form_of x = key_form_of y.
Proof. apply key_form_eqb_eq. Qed.

Lemma row_eqb_form (r1 r2 : list value) :
  row_eqb r1 r2 = true <-> map key_form_of r1 = map key_form_of r2.
Proof.
  revert r2. induction r1 as [|x r1 IH]; intros [|y r2]; simpl;
    try (split; [discriminate | congruence]).
  - split; reflexivity.
  - rewrite andb_true_iff, value_eqb_form, IH. split.
    + intros [-> ->]. reflexivity.
    + intros H. injection H. auto.
Qed.

Lemma row_eqb_refl (r : list value) : row_eqb r r = true.
Proof. now apply row_eqb_form. Qed.

Lemma has_column_In (df : DataFrame) (name : string) :
  has_column df name = true <-> In name (columns df).
Proof.
  unfold has_column. rewrite existsb_exists. split.
  - intros [c [Hc He]]. apply String.eqb_eq in He. now subst.
  - intros H. exists name. split; [exact H | apply String.eqb_refl].
Qed.

Lemma has_column_not_In (df : DataFrame) (name : string) :
  has_column df name = false <-> ~ In name (columns df).
Proof.
  rewrite <- has_column_In. destruct (has_column df name); split; congruence.
Qed.

Lemma index_of_In (name : string) (names : list string) :
  In name names <-> exists i, index_of name names = Some i.
Proof.
  induction names as [|n names IH]; simpl.
  - split; [contradiction | intros [i H]; discriminate].
  - destruct (String.eqb name n) eqn:E.
    + apply String.eqb_eq in E. subst. split; eauto.
    + apply String.eqb_neq in E. rewrite IH. split.
      * intros [H | [i Hi]]; [congruence|]. rewrite Hi. simpl. eauto.
      * intros [i Hi]. right. destruct (index_of name names); [eauto | discriminate].
Qed.

Lemma index_of_None (name : string) (names : list string) :
  index_of name names = None <-> ~ In name names.
Proof.
  rewrite index_of_In. split.
  - intros H [i Hi]. congruence.
  - intros H. destruct (index_of name names) eqn:E; [|reflexivity].
    exfalso. eauto.
Qed.

(** Two labels at the same position are the same label. *)
Lemma index_of_inj (a b : string) (names : list string) (i : nat) :
  index_of a names = Some i -> index_of b names = Some i -> a = b.
Proof.
  revert i. induction names as [|n names IH]; simpl; intros i; [discriminate|].
  destruct (String.eqb a n) eqn:Ea, (String.eqb b n) eqn:Eb.
  - apply String.eqb_eq in Ea, Eb. congruence.
  - intros [= <-]. destruct (index_of b names); simpl; discriminate.
  - intros H [= <-]. destruct (index_of a names); simpl in H; discriminate.
  - destruct (index_of a names) as [j|], (index_of b names) as [k|]; simpl;
      try discriminate.
    intros [= <-] [= ->]. now apply (IH j).
Qed.

(** A rewritten cell reads as the function of the old one, provided the
    function keeps the missing marker (the cell a short record lacks). *)
Lemma cell_update_same (f : value -> value) (i : nat) (r : list value) :
  f VMissing = VMissing -> cell i (update_cell f i r) = f (cell i r).
Proof.
  intros Hf. unfold cell. revert i.
  induction r as [|x r IH]; intros [|i]; simpl; auto.
Qed.

Lemma cell_update_other (f : value -> value) (i j : nat) (r : list value) :
  i <> j -> cell j (update_cell f i r) = cell j r.
Proof.
  unfold cell. revert i j.
  induction r as [|x r IH]; intros [|i] [|j] H; simpl; auto; congruence.
Qed.

(** ** Keeping the first record of each kind *)

Section KeepFirst.

Lemma keep_first_In (rs : list (list value)) :
  forall seen r,
    In r (keep_first row_eqb (fun r => r) seen rs) ->
    In r rs /\ existsb (row_eqb r) seen = false.
Proof.
  induction rs as [|x rs IH]; intros seen r; simpl; [contradiction|].
  destruct (existsb (row_eqb x) seen) eqn:Hx.
  - intros H. destruct (IH _ _ H). auto.
  - intros [<- | H]; [auto|].
    destruct (IH _ _ H) as [Hin Hs]. simpl in Hs.
    apply orb_false_iff in Hs. tauto.
Qed.

Lemma keep_first_NoDup (rs : list (list value)) :
  forall seen, NoDup (keep_first row_eqb (fun r => r) seen rs).
Proof.
  induction rs as [|x rs IH]; intros seen; simpl; [constructor|].
  destruct (existsb (row_eqb x) seen); [apply IH|].
  constructor; [|apply IH].
  intros H. apply keep_first_In in H. destruct H as [_ H]. simpl in H.
  now rewrite row_eqb_refl in H.
Qed.

Lemma keep_first_idem (rs : list (list value)) :
  forall seen,
    keep_first row_eqb (fun r => r) seen (keep_first row_eqb (fun r => r) seen rs)
    = keep_first row_eqb (fun r => r) seen rs.
Proof.
  induction rs as [|x rs IH]; intros seen; simpl; [reflexivity|].
  destruct (existsb (row_eqb x) seen) eqn:Hx; [apply IH|].
  simpl. rewrite Hx. now rewrite IH.
Qed.

End KeepFirst.

Lemma firstn_length_app {A : Type} (l l' : list A) : firstn (List.length l) (l ++ l') = l.
Proof. induction l as [|x l IH]; simpl; [reflexivity | now rewrite IH]. Qed.

Lemma filter_split_length {A : Type} (f : A -> bool) (l : list A) :
  List.length (filter (fun x => negb (f x)) l) + List.length (filter f l) = List.length l.
Proof.
  induction l as [|x l IH]; simpl; [reflexivity|].
  destruct (f x); simpl; lia.
Qed.

(** ** The records the loop keeps, by position *)

Section KeepFirstBy.
Context {K F : Type} (eqb : K -> K -> bool) (key : list value -> K) (form : K -> F).
Hypothesis eqb_form : forall a b, eqb a b = true <-> form a = form b.

Lemma existsb_ext_form (a b : K) (l : list K) :
  form a = form b -> existsb (eqb a) l = existsb (eqb b) l.
Proof.
  intros H. induction l as [|c l IH]; simpl; [reflexivity|].
  rewrite IH. f_equal.
  destruct (eqb a c) eqn:Ea, (eqb b c) eqn:Eb; try reflexivity.
  - apply eqb_form in Ea. rewrite H in Ea. apply eqb_form in Ea. congruence.
  - apply eqb_form in Eb. rewrite <- H in Eb. apply eqb_form in Eb. congruence.
Qed.

(** [pre] is what the loop has passed, [seen] the keys it holds. *)
Lemma keep_first_positions (rs : list (list value)) :
  forall pre seen,
    (forall x, existsb (eqb x) seen = existsb (eqb x) (map key pre)) ->
    keep_first eqb key seen rs
    = map (fun k => nth k (pre ++ rs) [])
          (filter (fun k => negb (earlier_key eqb key (pre ++ rs) k))
                  (seq (List.length pre) (List.length rs))).
Proof.
  induction rs as [|r rs IH]; intros pre seen Hseen; [reflexivity|].
  cbn [keep_first List.length seq filter].
  assert (Hk : earlier_key eqb key (pre ++ r :: rs) (List.length pre)
               = existsb (eqb (key r)) seen).
  { unfold earlier_key. rewrite nth_middle, firstn_length_app. now rewrite Hseen. }
  rewrite Hk.
  assert (Hshift : pre ++ r :: rs = (pre ++ [r]) ++ rs)
    by now rewrite <- app_assoc.
  assert (Hlen : S (List.length pre) = List.length (pre ++ [r]))
    by (rewrite length_app; simpl; lia).
  destruct (existsb (eqb (key r)) seen) eqn:Hr; cbn [negb map].
  - rewrite Hshift, Hlen. apply IH.
    intros x. rewrite map_app, existsb_app, Hseen. simpl. rewrite orb_false_r.
    destruct (eqb x (key r)) eqn:Hx; [|now rewrite orb_false_r].
    apply eqb_form in Hx.
    rewrite orb_true_r, <- Hseen, (existsb_ext_form x (key r) seen Hx). exact Hr.
  - rewrite nth_middle. f_equal.
    rewrite Hshift, Hlen. apply IH.
    intros x. rewrite map_app, existsb_app. simpl. rewrite Hseen, orb_false_r.
    apply orb_comm.
Qed.

Lemma keep_first_first_per_key (rs : list (list value)) :
  keep_first eqb key [] rs = first_per_key eqb key rs.
Proof. apply (keep_first_positions rs [] []). reflexivity. Qed.

End KeepFirstBy.

End FrameFacts.

(* ===================================================================== *)
(** * More facts about keeping the first record of each key               *)
(* ===================================================================== *)

Module KeepFirstFacts.
Import Frame FrameOps Statements FrameFacts.

Section ByKey.
Context {K F : Type} (eqb : K -> K -> bool) (key : list value -> K) (form : K -> F).
Hypothesis eqb_form : forall a b, eqb a b = true <-> form a = form b.

Lemma eqb_refl_key (a : K) : eqb a a = true.
Proof. now apply eqb_form. Qed.

Lemma keep_first_by_In (rs : list (list value)) :
  forall seen r,
    In r (keep_first eqb key seen rs) ->
    In r rs /\ existsb (eqb (key r)) seen = false.
Proof.
  induction rs as [|x rs IH]; intros seen r; simpl; [contradiction|].
  destruct (existsb (eqb (key x)) seen) eqn:Hx.
  - intros H. destruct (IH _ _ H). auto.
  - intros [<- | H]; [auto|].
    destruct (IH _ _ H) as [Hin Hs]. simpl in Hs.
    apply orb_false_iff in Hs. tauto.
Qed.

(** The keys of the records kept are pairwise different, also as forms: no
    two of them are one key. *)
Lemma keep_first_forms_NoDup (rs : list (list value)) :
  forall seen, NoDup (map (fun r => form (key r)) (keep_first eqb key seen rs)).
Proof.
  induction rs as [|x rs IH]; intros seen; simpl; [constructor|].
  destruct (existsb (eqb (key x)) seen); [apply IH|].
  simpl. constructor; [|apply IH].
  intros H. apply in_map_iff in H. destruct H as [r [Hk Hr]].
  apply keep_first_by_In in Hr. destruct Hr as [_ Hs]. simpl in Hs.
  apply orb_false_iff in Hs. destruct Hs as [Hs _].
  apply eqb_form in Hk. congruence.
Qed.

Lemma keep_first_keys_NoDup (rs : list (list value)) :
  forall seen, NoDup (map key (keep_first eqb key seen rs)).
Proof.
  intros seen. apply (NoDup_map_inv form). rewrite map_map. apply keep_first_forms_NoDup.
Qed.

Lemma keep_first_by_idem (rs : list (list value)) :
  forall seen,
    keep_first eqb key seen (keep_first eqb key seen rs) = keep_first eqb key seen rs.
Proof.
  induction rs as [|x rs IH]; intros seen; simpl; [reflexivity|].
  destruct (existsb (eqb (key x)) seen) eqn:Hx; [apply IH|].
  simpl. rewrite Hx. now rewrite IH.
Qed.

(** Records no two of which have one key, none of them seen, are all kept. *)
Lemma keep_first_all_kept (rs : list (list value)) :
  forall seen,
    NoDup (map (fun r => form (key r)) rs) ->
    (forall r, In r rs -> existsb (eqb (key r)) seen = false) ->
    keep_first eqb key seen rs = rs.
Proof.
  induction rs as [|x rs IH]; intros seen Hnd Hseen; simpl; [reflexivity|].
  rewrite (Hseen x (or_introl eq_refl)). f_equal.
  inversion Hnd as [|k ks Hnotin Hnd']; subst.
  apply IH; [exact Hnd'|].
  intros r Hr. simpl. rewrite (Hseen r (or_intror Hr)), orb_false_r.
  destruct (eqb (key r) (key x)) eqn:E; [|reflexivity].
  apply eqb_form in E. exfalso. apply Hnotin. rewrite <- E.
  now apply (in_map (fun r => form (key r))).
Qed.

Lemma keep_first_length_le (rs : list (list value)) :
  forall seen, List.length (keep_first eqb key seen rs) <= List.length rs.
Proof.
  induction rs as [|x rs IH]; intros seen; simpl; [lia|].
  destruct (existsb (eqb (key x)) seen); simpl.
  - specialize (IH seen). lia.
  - specialize (IH (key x :: seen)). lia.
Qed.

Lemma keep_first_incl (rs : list (list value)) :
  forall seen, incl (keep_first eqb key seen rs) rs.
Proof.
  intros seen r Hr. now apply keep_first_by_In in Hr.
Qed.

Lemma keep_first_nonempty (rs : list (list value)) :
  rs <> [] -> keep_first eqb key [] rs <> [].
Proof. destruct rs as [|x rs]; [congruence|]. simpl. discriminate. Qed.

End ByKey.

(** Records with pairwise different keys keep them under a filter. *)
Lemma keys_distinct_after_filter {F : Type} (key : list value -> F)
    (keep : list value -> bool) (rs : list (list value)) :
  NoDup (map key rs) -> NoDup (map key (filter keep rs)).
Proof.
  intros Hnd. induction rs as [|r rs IH]; [exact Hnd|].
  cbn [map] in Hnd. apply NoDup_cons_iff in Hnd. destruct Hnd as [Hfresh Hrest].
  cbn [filter]. destruct (keep r); [|now apply IH].
  cbn [map]. apply NoDup_cons; [|now apply IH].
  intros Hin. apply Hfresh.
  apply in_map_iff in Hin. destruct Hin as [r' [Hkey Hr']].
  apply filter_In in Hr'. rewrite <- Hkey. apply in_map. tauto.
Qed.

(** Records no two of which have one key are no two of them equal in every
    column. *)
Lemma key_forms_row_forms (i : nat) (rs : list (list value)) :
  NoDup (map (fun r => key_form_of (cell i r)) rs) ->
  NoDup (map (map key_form_of) rs).
Proof.
  intros Hnd. induction rs as [|r rs IH]; [constructor|].
  cbn [map] in *. apply NoDup_cons_iff in Hnd. destruct Hnd as [Hfresh Hrest].
  apply NoDup_cons; [|now apply IH].
  intros Hin. apply Hfresh.
  apply in_map_iff in Hin. destruct Hin as [r' [Hrow Hr']].
  apply in_map_iff. exists r'. split; [|exact Hr'].
  unfold cell.
  assert (Hnth : forall r0 : list value,
             key_form_of (nth i r0 VMissing) = nth i (map key_form_of r0) KMissing).
  { intros r0. now rewrite <- (map_nth key_form_of). }
  cbn beta.
  now rewrite !Hnth, Hrow.
Qed.

(** What [drop_duplicates_subset] returns on a frame that has the column. *)
Lemma drop_duplicates_subset_present (name : string) (df : DataFrame) (i : nat) :
  index_of name (columns df) = Some i ->
  exists out,
    drop_duplicates_subset name df = inr out
    /\ columns out = columns df
    /\ rows out = keep_first value_eqb (cell i) [] (rows df).
Proof.
  intros Hi. unfold drop_duplicates_subset.
  destruct (empty df) eqn:He.
  - exists df. split; [reflexivity|]. split; [reflexivity|].
    unfold empty in He. destruct (columns df); [discriminate|].
    destruct (rows df); [reflexivity | discriminate].
  - rewrite Hi. eexists. split; [reflexivity|]. split; reflexivity.
Qed.

Lemma drop_duplicates_rows (df : DataFrame) :
  columns (drop_duplicates df) = columns df
  /\ (empty df = false ->
      rows (drop_duplicates df) = keep_first row_eqb (fun r => r) [] (rows df)).
Proof.
  unfold drop_duplicates. destruct (empty df); split; try reflexivity; discriminate.
Qed.

Lemma field_cell (cols : list string) (r : list value) (name : string) (i : nat) :
  index_of name cols = Some i -> field cols r name = cell i r.
Proof. intros H. unfold field. now rewrite H. Qed.

End KeepFirstFacts.

(* ===================================================================== *)
(** * The scrubber's operations                                           *)
(* ===================================================================== *)

Section RemoveDuplicates.
Import Frame StateExn Scrubber FrameFacts Runs.

Lemma earlier_equal_key (rs : list (list value)) (k : nat) :
  earlier_key row_eqb (fun r => r) rs k = earlier_equal rs k.
Proof. unfold earlier_key, earlier_equal. now rewrite map_id. Qed.

(** C1.  Removing duplicate records leaves the columns alone, keeps exactly
    the records that equal no record above them, in their order, so the
    count drops by the number of strict duplicates; no record is left twice,
    and removing again changes nothing. *)
Theorem remove_duplicate_records_spec (s : DataScrubber) :
  exists t : DataFrame,
    remove_duplicate_records s = (inr t, {| df := t |})
    /\ columns t = columns (df s)
    /\ rows t = map (fun k => nth k (rows (df s)) []) (survivors (rows (df s)))
    /\ List.length (rows t) + List.length (strict_duplicates (rows (df s)))
       = List.length (rows (df s))
    /\ NoDup (rows t)
    /\ remove_duplicate_records {| df := t |} = (inr t, {| df := t |}).
Proof.
  eexists. split; [reflexivity|]. cbn [columns rows df].
  assert (Hpos : keep_first row_eqb (fun r => r) [] (rows (df s))
                 = map (fun k => nth k (rows (df s)) []) (survivors (rows (df s)))).
  { rewrite (keep_first_first_per_key row_eqb (fun r => r) (map key_form_of) row_eqb_form).
    unfold first_per_key, survivors. f_equal. apply filter_ext.
    intros k. now rewrite earlier_equal_key. }
  repeat split.
  - exact Hpos.
  - rewrite Hpos, length_map. unfold survivors, strict_duplicates.
    rewrite filter_split_length. apply length_seq.
  - apply keep_first_NoDup.
  - unfold remove_duplicate_records, update_df, bind, get, put, ret.
    cbn [df columns rows]. now rewrite keep_first_idem.
Qed.

(** [test_remove_duplicate_records]: seven records remain, and position 4
    is the one strict duplicate. *)
Example test_remove_duplicate_records :
  (exists t, fst (remove_duplicate_records {| df := raw_df |}) = inr t
             /\ List.length (rows t) = 7)
  /\ strict_duplicates (rows raw_df) = [4].
Proof. split; [eexists; split; reflexivity | reflexivity]. Qed.

End RemoveDuplicates.

Section MissingData.
Import Frame StateExn Scrubber FrameFacts Runs.

Lemma has_missing_false (r : list value) :
  has_missing r = false <-> forall v, In v r -> is_missing v = false.
Proof.
  unfold has_missing. induction r as [|x r IH]; simpl.
  - split; [intros _ v [] | reflexivity].
  - rewrite orb_false_iff, IH. split.
    + intros [Hx Hr] v [<- | Hv]; auto.
    + intros H. split; [apply H; auto | intros v Hv; apply H; auto].
Qed.

Lemma fill_cell_present (fill_value v : value) :
  is_missing fill_value = false -> is_missing (fill_cell fill_value v) = false.
Proof. unfold fill_cell. destruct (is_missing v) eqn:E; auto. Qed.

(** C2.  With [drop] set, the records that hold a missing cell in any column
    are removed, whatever [fill_value] is; otherwise, with a [fill_value],
    the missing cells of every column are replaced by it and nothing else
    changes; with neither, the call returns the table as it is. *)
Theorem handle_missing_data_spec (s : DataScrubber) :
  (forall fill_value, exists t : DataFrame,
      handle_missing_data fill_value true s = (inr t, {| df := t |})
      /\ columns t = columns (df s)
      /\ rows t = filter (fun r => negb (has_missing r)) (rows (df s))
      /\ (forall r, In r (rows t) <->
                    In r (rows (df s)) /\ forall v, In v r -> is_missing v = false))
  /\ (forall v, exists t : DataFrame,
         handle_missing_data (Some v) false s = (inr t, {| df := t |})
         /\ columns t = columns (df s)
         /\ List.length (rows t) = List.length (rows (df s))
         /\ (forall k r, nth_error (rows (df s)) k = Some r ->
                         nth_error (rows t) k = Some (map (fill_cell v) r))
         /\ (forall x, fill_cell v x = if is_missing x then v else x)
         /\ (is_missing v = false ->
             forall r x, In r (rows t) -> In x r -> is_missing x = false))
  /\ handle_missing_data None false s = (inr (df s), s).
Proof.
  split; [|split].
  - intros fill_value. eexists. split; [reflexivity|]. cbn [columns rows].
    split; [reflexivity|]. split; [reflexivity|].
    intros r. rewrite filter_In, negb_true_iff, has_missing_false. reflexivity.
  - intros v. eexists. split; [reflexivity|]. cbn [columns rows].
    split; [reflexivity|]. split; [apply length_map|].
    split; [intros k r Hk; now apply map_nth_error|].
    split; [reflexivity|].
    intros Hv r x Hr Hx.
    apply in_map_iff in Hr. destruct Hr as [r0 [<- _]].
    apply in_map_iff in Hx. destruct Hx as [x0 [<- _]].
    now apply fill_cell_present.
  - destruct s as [d]. reflexivity.
Qed.

(** [test_handle_missing_data_drop] and [test_handle_missing_data_fill] on
    the table of the unit tests. *)
Example test_handle_missing_data :
  (exists t, fst (handle_missing_data None true {| df := raw_df |}) = inr t
             /\ List.length (rows t) = 6)
  /\ (exists t, fst (handle_missing_data (Some (VText "MISSING")) false {| df := raw_df |})
                = inr t
                /\ column_values t "Name"
                   = Some (map VText ["alice"; "Bob"; "charlie "; "David"; "alice";
                                      "MISSING"; "Eve"; "Frank"])).
Proof. split; eexists; split; reflexivity. Qed.

End MissingData.

Section ColumnOperations.
Import Text Frame StateExn Scrubber FrameFacts.
Context {C : Conversions}.

Lemma column_values_map_column (f : value -> value) (column : string) (d : DataFrame) :
  f VMissing = VMissing ->
  In column (columns d) ->
  column_values (map_column f column d) column
  = option_map (map f) (column_values d column).
Proof.
  intros Hf Hin. apply index_of_In in Hin. destruct Hin as [i Hi].
  unfold map_column, column_values. rewrite Hi. cbn [columns rows]. rewrite Hi.
  simpl. f_equal. rewrite !map_map. apply map_ext.
  intros r. now apply cell_update_same.
Qed.

Lemma column_values_map_column_other (f : value -> value) (column c : string)
    (d : DataFrame) :
  c <> column -> column_values (map_column f column d) c = column_values d c.
Proof.
  intros Hc. unfold map_column, column_values.
  destruct (index_of column (columns d)) as [i|] eqn:Hi; [|reflexivity].
  cbn [columns rows].
  destruct (index_of c (columns d)) as [j|] eqn:Hj; [|reflexivity].
  f_equal. rewrite map_map. apply map_ext. intros r.
  apply cell_update_other. intros <-. apply Hc. now apply (index_of_inj c column (columns d) i).
Qed.

Lemma map_column_columns (f : value -> value) (column : string) (d : DataFrame) :
  columns (map_column f column d) = columns d.
Proof. unfold map_column. now destruct (index_of column (columns d)). Qed.

Lemma map_column_length (f : value -> value) (column : string) (d : DataFrame) :
  List.length (rows (map_column f column d)) = List.length (rows d).
Proof.
  unfold map_column. destruct (index_of column (columns d)); [|reflexivity].
  apply length_map.
Qed.

Lemma update_cell_twice (f : value -> value) (i : nat) (r : list value) :
  (forall v, f (f v) = f v) -> update_cell f i (update_cell f i r) = update_cell f i r.
Proof.
  intros Hf. revert i. induction r as [|x r IH]; intros [|i]; simpl; auto.
  - now rewrite Hf.
  - now rewrite IH.
Qed.

Lemma map_column_idem (f : value -> value) (column : string) (d : DataFrame) :
  (forall v, f (f v) = f v) ->
  map_column f column (map_column f column d) = map_column f column d.
Proof.
  intros Hf. unfold map_column.
  destruct (index_of column (columns d)) as [i|] eqn:Hi; cbn [columns rows];
    rewrite Hi; [|reflexivity].
  f_equal. rewrite map_map. apply map_ext. intros r. now apply update_cell_twice.
Qed.

Lemma normalize_cell_idem (v : value) : normalize_cell (normalize_cell v) = normalize_cell v.
Proof.
  destruct v; simpl; try reflexivity; now rewrite TextFacts.lower_strip_idem.
Qed.

Lemma column_present (d : DataFrame) (column : string) :
  In column (columns d) -> exists vals, column_values d column = Some vals.
Proof.
  intros H. apply index_of_In in H. destruct H as [i Hi].
  unfold column_values. rewrite Hi. eauto.
Qed.

(** C3.  On an existing column, the cells that are present become their
    text, trimmed and in lower case; the missing ones stay missing; the
    other columns, the number of records and their order are as before; and
    a second call changes nothing. *)
Theorem format_column_strings_spec (s : DataScrubber) (column : string) :
  In column (columns (df s)) ->
  exists (t : DataFrame) (vals : list value),
    format_column_strings_to_lower_and_trim column s = (inr t, {| df := t |})
    /\ columns t = columns (df s)
    /\ List.length (rows t) = List.length (rows (df s))
    /\ column_values (df s) column = Some vals
    /\ column_values t column = Some (map normalize_cell vals)
    /\ (forall v, is_missing v = false ->
                  normalize_cell v = VText (lower (strip (to_text v))))
    /\ normalize_cell VMissing = VMissing
    /\ (forall c, c <> column -> column_values t c = column_values (df s) c)
    /\ format_column_strings_to_lower_and_trim column {| df := t |}
       = (inr t, {| df := t |}).
Proof.
  intros Hin.
  destruct (column_present _ _ Hin) as [vals Hvals].
  assert (Hhas : has_column (df s) column = true) by now apply has_column_In.
  exists (map_column normalize_cell column (df s)), vals.
  split.
  { unfold format_column_strings_to_lower_and_trim, update_df, bind, get, put, ret.
    now rewrite Hhas. }
  split; [apply map_column_columns|].
  split; [apply map_column_length|].
  split; [exact Hvals|].
  split.
  { rewrite column_values_map_column by (reflexivity || assumption).
    now rewrite Hvals. }
  split; [intros v Hv; destruct v; try discriminate; reflexivity|].
  split; [reflexivity|].
  split; [intros c Hc; now apply column_values_map_column_other|].
  assert (Hhas' : has_column (map_column normalize_cell column (df s)) column = true).
  { apply has_column_In. now rewrite map_column_columns. }
  unfold format_column_strings_to_lower_and_trim, update_df, bind, get, put, ret.
  cbn [df]. rewrite Hhas'. cbn [df].
  now rewrite (map_column_idem _ _ _ normalize_cell_idem).
Qed.

End ColumnOperations.

Section ColumnRuns.
Import Frame Scrubber Runs.
Lemma format_column_strings_witness :
  In "Status" (columns raw_df)
  /\ exists t,
       fst (format_column_strings_to_lower_and_trim
              "Status" {| df := raw_df |}) = inr t
       /\ column_values t "Status"
          = Some (map VText ["active"; "active"; "inactive"; "inactive";
                                   "active"; "active"; "active"; "active"]).
Proof.
  assert (H : In "Status" (columns raw_df)) by (simpl; tauto).
  split; [exact H|].
  destruct (format_column_strings_spec {| df := raw_df |} "Status" H)
    as (t & vals & Hrun & _ & _ & Hvals & Hcol & _).
  exists t. split.
  - now rewrite Hrun.
  - rewrite Hcol. injection Hvals as <-. reflexivity.
Defined.

End ColumnRuns.

(* ===================================================================== *)
(** * The warehouse load                                                  *)
(* ===================================================================== *)

Section WarehouseLoad.
Import Frame StateExn EtlToDw FrameFacts.
Local Open Scope monad_scope.
Context {E : SqlEngine}.

Lemma with_schema_idem (db : Warehouse) : with_schema (with_schema db) = with_schema db.
Proof. destruct db as [[c|] [p|] [s|]]; reflexivity. Qed.

Lemma create_schema_run (db : Warehouse) :
  create_schema {| tables := db; executed := [] |}
  = (inr tt, {| tables := with_schema db; executed := schema_stmts |}).
Proof. destruct db as [[c|] [p|] [s|]]; reflexivity. Qed.

Lemma delete_existing_records_run (db : Warehouse) (ex : list stmt) :
  delete_existing_records {| tables := with_schema db; executed := ex |}
  = (inr tt, {| tables := cleared; executed := ex ++ delete_stmts |}).
Proof.
  destruct db as [[c|] [p|] [s|]];
    unfold delete_existing_records, execute_delete, log_stmt, bind, get, put, modify,
      cleared, delete_stmts; cbn; now rewrite <- !app_assoc.
Qed.

Lemma load_body_run (read_csv : string -> result DataFrame) (db : Warehouse) :
  load_body read_csv {| tables := with_schema db; executed := schema_stmts |}
  = insert_phase read_csv start.
Proof.
  unfold load_body. unfold bind at 1.
  now rewrite delete_existing_records_run.
Qed.

(** The database enters a run only through what is left when it fails. *)
Lemma run_load_shape (read_csv : string -> result DataFrame) (db : Warehouse) :
  run_load read_csv db
  = match insert_phase read_csv start with
    | (inr _, cur) => (inr tt, executed cur ++ [Commit], tables cur)
    | (inl e, cur) => (inl e, executed cur, with_schema db)
    end.
Proof.
  unfold run_load. rewrite create_schema_run, load_body_run. reflexivity.
Qed.

(** A successful insert function ran one [executemany] over the tuples of
    the de-duplicated frame, all of which went in. *)
Lemma insert_mapped_ok (t : table) (key file : string)
    (column_mapping : list (string * string)) (df : DataFrame) (cur cur' : Cursor)
    (u : unit) :
  insert_mapped t key file column_mapping df cur = (inr u, cur') ->
  exists held held' d,
    get_table t (tables cur) = Some held
    /\ drop_duplicates_subset key df = inr d
    /\ missing_columns column_mapping d = []
    /\ insert_all t (prepared_tuples key column_mapping df) held = (held', true)
    /\ cur' = {| tables := set_table t (Some held') (tables cur);
                 executed := executed cur
                             ++ [InsertInto t (prepared_tuples key column_mapping df)] |}.
Proof.
  unfold insert_mapped, prepared_tuples, bind, lift.
  destruct (drop_duplicates_subset key df) as [e | d]; [discriminate|].
  destruct (missing_columns column_mapping d) as [|m ms] eqn:Hm; [|discriminate].
  unfold executemany_insert, bind, get.
  destruct (get_table t (tables cur)) as [held|] eqn:Hheld; [|discriminate].
  destruct (insert_all t (rows (ordered column_mapping d)) held) as [held' ok] eqn:Hins.
  unfold put, log_stmt, modify, raise. destruct ok; [|discriminate].
  intros [= <-]. exists held, held', d. cbn [tables executed]. auto.
Qed.

(** Whatever an insert function raises before its [executemany], the cursor
    is as it was. *)
Lemma insert_mapped_missing (t : table) (key file : string)
    (column_mapping : list (string * string)) (df : DataFrame) (cur : Cursor) :
  (empty df = true \/ In key (columns df)) ->
  missing_columns column_mapping df <> [] ->
  insert_mapped t key file column_mapping df cur
  = (inl (ValueError ("Missing columns in " ++ file) (missing_columns column_mapping df)),
     cur).
Proof.
  intros Hkey Hmiss. unfold insert_mapped, bind, lift.
  assert (Hd : exists d, drop_duplicates_subset key df = inr d /\ columns d = columns df).
  { unfold drop_duplicates_subset. destruct (empty df) eqn:He; [eauto|].
    destruct Hkey as [Hk | Hk]; [discriminate|].
    apply index_of_In in Hk. destruct Hk as [i Hi]. rewrite Hi. eauto. }
  destruct Hd as [d [-> Hcols]].
  assert (Hsame : missing_columns column_mapping d = missing_columns column_mapping df).
  { unfold missing_columns, has_column. now rewrite Hcols. }
  rewrite Hsame. unfold raise.
  destruct (missing_columns column_mapping df); [congruence | reflexivity].
Qed.

Lemma prepared_tuples_first_per_key (key : string)
    (column_mapping : list (string * string)) (df : DataFrame) (i : nat) :
  index_of key (columns df) = Some i ->
  prepared_tuples key column_mapping df
  = rows (ordered column_mapping
            {| columns := columns df;
               rows := first_per_key value_eqb (cell i) (rows df) |}).
Proof.
  intros Hi. unfold prepared_tuples, drop_duplicates_subset.
  destruct (empty df) eqn:He.
  - unfold empty in He. destruct df as [cols rs]. cbn [columns rows] in *.
    destruct cols as [|c cols]; [discriminate|].
    destruct rs as [|r rs]; [reflexivity | discriminate].
  - rewrite Hi. now rewrite (keep_first_first_per_key value_eqb (cell i) key_form_of value_eqb_form).
Qed.

(** C7.  A second load on the same prepared files runs the same statements
    to the same outcome and leaves the database the first load left.  A
    load that succeeds created the tables, deleted from [sale], [customer]
    and [product] in that order, inserted into [customer], [product] and
    [sale] the tuples of each prepared frame with the first record of each
    key, and committed. *)
Theorem load_data_to_db_idempotent (read_csv : string -> result DataFrame)
    (db : Warehouse) :
  run_load read_csv (load_data_to_db read_csv db) = run_load read_csv db
  /\ load_data_to_db read_csv (load_data_to_db read_csv db) = load_data_to_db read_csv db
  /\ (forall stmts db',
        run_load read_csv db = (inr tt, stmts, db') ->
        exists customers_df products_df sales_df held_c held_p held_s,
          read_csv "customers_prepared.csv" = inr customers_df
          /\ read_csv "products_prepared.csv" = inr products_df
          /\ read_csv "sales_prepared.csv" = inr sales_df
          /\ stmts =
             schema_stmts ++ delete_stmts
             ++ [InsertInto Customer
                   (prepared_tuples "CustomerID" customer_mapping customers_df);
                 InsertInto Product
                   (prepared_tuples "productid" product_mapping products_df);
                 InsertInto Sale
                   (prepared_tuples "TransactionID" sale_mapping sales_df);
                 Commit]
          /\ insert_all Customer
               (prepared_tuples "CustomerID" customer_mapping customers_df) []
             = (held_c, true)
          /\ insert_all Product
               (prepared_tuples "productid" product_mapping products_df) []
             = (held_p, true)
          /\ insert_all Sale
               (prepared_tuples "TransactionID" sale_mapping sales_df) []
             = (held_s, true)
          /\ db' = {| customer := Some held_c; product := Some held_p;
                      sale := Some held_s |})
  /\ (forall key column_mapping df i,
        index_of key (columns df) = Some i ->
        prepared_tuples key column_mapping df
        = rows (ordered column_mapping
                  {| columns := columns df;
                     rows := first_per_key value_eqb (cell i) (rows df) |})).
Proof.
  assert (Hsame : run_load read_csv (load_data_to_db read_csv db) = run_load read_csv db).
  { unfold load_data_to_db. rewrite !run_load_shape.
    destruct (insert_phase read_csv start) as [[e | u] cur]; cbn [snd].
    - now rewrite with_schema_idem.
    - reflexivity. }
  split; [exact Hsame|].
  split; [unfold load_data_to_db at 1 3; now rewrite Hsame|].
  split; [|intros key column_mapping df i; apply prepared_tuples_first_per_key].
  intros stmts db'. rewrite run_load_shape.
  destruct (insert_phase read_csv start) as [[e | u] cur] eqn:Hphase; [discriminate|].
  intros [= <- <-].
  unfold insert_phase, bind, lift in Hphase.
  destruct (read_csv "customers_prepared.csv") as [e | customers_df]; [discriminate|].
  destruct (read_csv "products_prepared.csv") as [e | products_df]; [discriminate|].
  destruct (read_csv "sales_prepared.csv") as [e | sales_df]; [discriminate|].
  destruct (insert_customers customers_df start) as [[e | uc] cur1] eqn:Hc;
    [discriminate|].
  destruct (insert_products products_df cur1) as [[e | up] cur2] eqn:Hp;
    [discriminate|].
  apply insert_mapped_ok in Hc. destruct Hc as (hc0 & held_c & dc & Hgc & _ & _ & Hic & ->).
  apply insert_mapped_ok in Hp. destruct Hp as (hp0 & held_p & dp & Hgp & _ & _ & Hip & ->).
  apply insert_mapped_ok in Hphase.
  destruct Hphase as (hs0 & held_s & ds & Hgs & _ & _ & His & ->).
  cbn in Hgc, Hgp, Hgs. injection Hgc as <-. injection Hgp as <-. injection Hgs as <-.
  exists customers_df, products_df, sales_df, held_c, held_p, held_s.
  split; [reflexivity|]. split; [reflexivity|]. split; [reflexivity|].
  split; [cbn [executed start]; now rewrite <- !app_assoc|].
  split; [exact Hic|]. split; [exact Hip|]. split; [exact His|].
  reflexivity.
Qed.

End WarehouseLoad.

Section InsertFunctions.
Import Frame StateExn EtlToDw FrameFacts Runs.
Context {E : SqlEngine}.

(** On a frame with records and without the key column, de-duplication
    raises before the required columns are looked at. *)
Lemma insert_mapped_key_error (t : table) (key file : string)
    (column_mapping : list (string * string)) (df : DataFrame) (cur : Cursor) :
  empty df = false -> ~ In key (columns df) ->
  insert_mapped t key file column_mapping df cur = (inl (KeyError [key]), cur).
Proof.
  intros He Hk. apply index_of_None in Hk.
  unfold insert_mapped, bind, lift, drop_duplicates_subset. now rewrite He, Hk.
Qed.

(** C8 at [names_only].  Each insert function raises the [KeyError] of its
    key column alone and inserts nothing, though more required columns are
    absent: five for customers, six for products, nine for sales. *)
Theorem insert_names_only_reports_key_only (cur : Cursor) :
  (insert_customers names_only cur = (inl (KeyError ["CustomerID"]), cur)
   /\ missing_columns customer_mapping names_only
      = ["CustomerID"; "Region"; "JoinDate"; "LoyaltyPoints"; "PreferredContactMethod"])
  /\ (insert_products names_only cur = (inl (KeyError ["productid"]), cur)
      /\ missing_columns product_mapping names_only
         = ["productid"; "productname"; "category"; "unitprice"; "stockquantity";
            "suppliername"])
  /\ (insert_sales names_only cur = (inl (KeyError ["TransactionID"]), cur)
      /\ missing_columns sale_mapping names_only
         = ["TransactionID"; "CustomerID"; "ProductID"; "StoreID"; "CampaignID";
            "SaleDate"; "SaleAmount"; "DiscountPercent"; "PaymentType"]).
Proof. repeat split. Qed.

(** With the key column there, the [ValueError] names every absent column. *)
Example insert_customers_missing_region (cur : Cursor) :
  insert_customers
    {| columns := ["CustomerID"; "Name"; "JoinDate"; "PreferredContactMethod"];
       rows := [[VInt 1; VText "ann"; VText "2023-01-01"; VText "email"]] |} cur
  = (inl (ValueError "Missing columns in customers_prepared.csv"
                     ["Region"; "LoyaltyPoints"]), cur).
Proof. reflexivity. Qed.

End InsertFunctions.

Section LoadRuns.
Import Frame StateExn EtlToDw Runs.

(** A load into a fresh database: the second record of customer 1 is left
    out, and the columns of [sale] come in the warehouse's order. *)
Example load_fresh_db :
  load_data_to_db prepared_files fresh_db
  = {| customer :=
         Some [ [VInt 1; VText "ann"; VText "east"; VText "2023-01-01"; VInt 10; VText "email"];
                [VInt 2; VText "bob"; VText "west"; VText "2023-02-01"; VInt 20; VText "text"] ];
       product :=
         Some [ [VInt 101; VText "Laptop"; VText "electronics"; VInt 800; VInt 5; VText "Acme"] ];
       sale :=
         Some [ [VInt 550; VInt 1; VInt 101; VInt 404; VInt 0; VText "2024-01-06";
                 VInt 800; VInt 0; VText "card"] ] |}
  /\ load_data_to_db prepared_files (load_data_to_db prepared_files fresh_db)
     = load_data_to_db prepared_files fresh_db.
Proof. split; reflexivity. Qed.

End LoadRuns.

(* ===================================================================== *)
(** * More of the warehouse load                                          *)
(* ===================================================================== *)

Section SchemaAndDeletes.
Import Frame StateExn EtlToDw FrameFacts.

(** X1.  [create_schema] never raises: it creates each missing table empty,
    leaves the rows of every table that exists as they are, and run again
    it changes no table. *)
Theorem create_schema_keeps_rows (cur : Cursor) :
  exists cur',
    create_schema cur = (inr tt, cur')
    /\ executed cur' = executed cur ++ schema_stmts
    /\ (forall t, get_table t (tables cur') = ensure (get_table t (tables cur)))
    /\ (forall t held, get_table t (tables cur) = Some held ->
                       get_table t (tables cur') = Some held)
    /\ (exists cur'', create_schema cur' = (inr tt, cur'')
                      /\ tables cur'' = tables cur').
Proof.
  destruct cur as [[[c|] [p|] [s|]] ex];
    (eexists; split; [reflexivity|]; cbn [executed tables];
     split; [unfold schema_stmts; now rewrite <- !app_assoc|];
     split; [intros []; reflexivity|];
     split; [intros [] held H; cbn in *; congruence|];
     eexists; split; reflexivity).
Qed.

(** X2.  Run after [create_schema], [delete_existing_records] never raises
    and leaves the three tables empty, whatever the database held, the fact
    table deleted first.  On its own, without a [sale] table, it raises and
    deletes nothing. *)
Theorem delete_after_schema_clears (cur : Cursor) :
  (exists cur1 cur2,
     create_schema cur = (inr tt, cur1)
     /\ delete_existing_records cur1 = (inr tt, cur2)
     /\ tables cur2 = cleared
     /\ executed cur2 = executed cur ++ schema_stmts ++ delete_stmts)
  /\ (sale (tables cur) = None ->
      delete_existing_records cur = (inl (OtherError "no such table"), cur)).
Proof.
  destruct cur as [db ex]. cbn [tables executed]. split.
  - destruct db as [[c|] [p|] [s|]];
      (do 2 eexists; split; [reflexivity|];
       unfold delete_existing_records, execute_delete, log_stmt, bind, get, put, modify;
       cbn; split; [reflexivity|]; split; [reflexivity|];
       unfold schema_stmts, delete_stmts; now rewrite <- !app_assoc).
  - intros Hs. unfold delete_existing_records, execute_delete, bind, get, raise.
    cbn. now rewrite Hs.
Qed.

End SchemaAndDeletes.

Section InsertTuples.
Import Frame FrameOps StateExn EtlToDw Statements FrameFacts KeepFirstFacts Runs.
Context {E : SqlEngine}.

Lemma missing_columns_none (column_mapping : list (string * string)) (df : DataFrame)
    (src : string) :
  missing_columns column_mapping df = [] ->
  In src (map snd column_mapping) -> In src (columns df).
Proof.
  unfold missing_columns. intros Hm Hin.
  destruct (has_column df src) eqn:Hh; [now apply has_column_In|].
  assert (Hf : In src (filter (fun s => negb (has_column df s)) (map snd column_mapping))).
  { apply filter_In. split; [exact Hin | now rewrite Hh]. }
  rewrite Hm in Hf. contradiction.
Qed.

Lemma missing_columns_In (column_mapping : list (string * string)) (df : DataFrame)
    (c : string) :
  In c (missing_columns column_mapping df)
  <-> In c (map snd column_mapping) /\ ~ In c (columns df).
Proof.
  unfold missing_columns. rewrite filter_In, negb_true_iff, has_column_not_In.
  reflexivity.
Qed.

Lemma ordered_rows (column_mapping : list (string * string)) (d : DataFrame) :
  rows (ordered column_mapping d)
  = map (tuple_of (columns d) (map snd column_mapping)) (rows d).
Proof.
  unfold ordered, rename, select_columns, tuple_of. cbn [rows columns].
  apply map_ext. intros r. rewrite map_map. apply map_ext. intros l.
  unfold field. reflexivity.
Qed.

(** The shared body, when it returns. *)
Lemma insert_mapped_tuples (t : table) (key file : string)
    (column_mapping : list (string * string)) :
  In key (map snd column_mapping) ->
  inserts_mapped_tuples (insert_mapped t key file column_mapping) t key column_mapping.
Proof.
  intros Hkey df cur cur' u Hrun.
  apply insert_mapped_ok in Hrun.
  destruct Hrun as (held & held' & d & _ & Hd & Hm & _ & ->).
  assert (Hcols : columns d = columns df).
  { unfold drop_duplicates_subset in Hd. destruct (empty df); [congruence|].
    destruct (index_of key (columns df)); [|discriminate].
    injection Hd as <-. reflexivity. }
  pose proof (missing_columns_none _ _ _ Hm Hkey) as Hin.
  rewrite Hcols in Hin. apply index_of_In in Hin. destruct Hin as [i Hi].
  exists i. split; [exact Hi|]. cbn [executed].
  rewrite (prepared_tuples_first_per_key key column_mapping df i Hi).
  now rewrite ordered_rows.
Qed.

(** X3.  On a frame that is empty or has the key column, each insert
    function that meets absent required columns raises the [ValueError]
    listing exactly the required columns that are no column of the frame, in
    the mapping's order, and the cursor is as it was. *)
Theorem insert_reports_all_missing :
  reports_all_missing insert_customers "CustomerID" "customers_prepared.csv"
    customer_mapping
  /\ reports_all_missing insert_products "productid" "products_prepared.csv"
       product_mapping
  /\ reports_all_missing insert_sales "TransactionID" "sales_prepared.csv" sale_mapping
  /\ (forall column_mapping df c,
        In c (missing_columns column_mapping df)
        <-> In c (map snd column_mapping) /\ ~ In c (columns df)).
Proof.
  split; [|split; [|split]];
    try (intros df cur Hkey Hmiss; now apply insert_mapped_missing).
  intros column_mapping df c. apply missing_columns_In.
Qed.

(** X4.  An insert function that returns ran one [executemany] whose tuples
    are read by column label, not by position: one tuple per first record
    of a key, holding the cells under the mapped source columns in the
    warehouse's column order, whatever the order of the frame's columns and
    whatever other columns it has. *)
Theorem insert_tuples_by_label :
  inserts_mapped_tuples insert_customers Customer "CustomerID" customer_mapping
  /\ inserts_mapped_tuples insert_products Product "productid" product_mapping
  /\ inserts_mapped_tuples insert_sales Sale "TransactionID" sale_mapping.
Proof.
  split; [|split]; apply insert_mapped_tuples; simpl; tauto.
Qed.

Lemma first_per_key_keys_NoDup (i : nat) (rs : list (list value)) :
  NoDup (map (cell i) (first_per_key value_eqb (cell i) rs)).
Proof.
  rewrite <- (keep_first_first_per_key value_eqb (cell i) key_form_of value_eqb_form).
  apply (keep_first_keys_NoDup value_eqb (cell i) key_form_of value_eqb_form).
Qed.

Lemma insert_mapped_distinct_keys (t : table) (key file : string)
    (rest : list (string * string)) (dst : string) :
  inserts_distinct_keys (insert_mapped t key file ((dst, key) :: rest)) t
                        (S (List.length rest)).
Proof.
  intros df cur cur' u Hrun.
  destruct (insert_mapped_tuples t key file ((dst, key) :: rest)
              (or_introl eq_refl) df cur cur' u Hrun) as [i [Hi Hex]].
  eexists. split; [exact Hex|]. split.
  - apply Forall_forall. intros r Hr. apply in_map_iff in Hr.
    destruct Hr as [r0 [<- _]]. unfold tuple_of. rewrite length_map. simpl.
    now rewrite length_map.
  - rewrite map_map.
    rewrite (map_ext _ (cell i)); [apply first_per_key_keys_NoDup|].
    intros r. unfold tuple_of. cbn [map snd cell nth]. now apply field_cell.
Qed.

(** X5.  An insert function that returns handed over tuples with one cell
    per placeholder of its INSERT (six, six and nine) whose first cells, the
    primary keys, are pairwise different values of the file. *)
Theorem insert_keys_distinct :
  inserts_distinct_keys insert_customers Customer 6
  /\ inserts_distinct_keys insert_products Product 6
  /\ inserts_distinct_keys insert_sales Sale 9.
Proof.
  split; [|split]; apply insert_mapped_distinct_keys.
Qed.

Lemma insert_mapped_header_only (t : table) (key file : string)
    (column_mapping : list (string * string)) :
  accepts_header_only (insert_mapped t key file column_mapping) t column_mapping.
Proof.
  intros df cur held Hrows Hmiss Hheld.
  assert (He : empty df = true).
  { unfold empty. rewrite Hrows. now destruct (columns df). }
  unfold insert_mapped, bind, lift, drop_duplicates_subset. rewrite He, Hmiss.
  unfold executemany_insert, bind, get. rewrite Hheld.
  rewrite ordered_rows, Hrows. cbn [map insert_all].
  unfold put, log_stmt, modify. eexists. split; [reflexivity|].
  cbn [tables executed]. split; [|reflexivity].
  intros t'. destruct t, t'; cbn in *; congruence.
Qed.

(** X19.  A prepared file that has its header and no record is no error: the
    insert function returns after an [executemany] over no tuple, and every
    table holds what it held. *)
Theorem insert_header_only_frame :
  accepts_header_only insert_customers Customer customer_mapping
  /\ accepts_header_only insert_products Product product_mapping
  /\ accepts_header_only insert_sales Sale sale_mapping.
Proof.
  split; [|split]; apply insert_mapped_header_only.
Qed.

End InsertTuples.

Section LoadOutcomes.
Import Frame StateExn EtlToDw Statements FrameFacts Runs.
Context {E : SqlEngine}.

(** X6.  A load that raises leaves every table that existed with exactly
    the rows it had (the deletes are dropped with the transaction) and the
    tables that did not exist empty. *)
Theorem failed_load_keeps_rows (read_csv : string -> result DataFrame) (db : Warehouse)
    (e : exn) (stmts : list stmt) (db' : Warehouse) :
  run_load read_csv db = (inl e, stmts, db') ->
  db' = with_schema db
  /\ (forall t held, get_table t db = Some held -> get_table t db' = Some held)
  /\ (forall t, get_table t db = None -> get_table t db' = Some [])
  /\ ~ In Commit stmts.
Proof.
  rewrite run_load_shape.
  destruct (insert_phase read_csv start) as [[e0 | u] cur] eqn:Hphase; [|discriminate].
  intros [= <- <- <-].
  split; [reflexivity|].
  split; [intros [] held H; destruct db as [c p s]; cbn in *; now rewrite H|].
  split; [intros [] H; destruct db as [c p s]; cbn in *; now rewrite H|].
  (* no statement of the body is a commit *)
  unfold insert_phase, bind, lift in Hphase.
  assert (Hstart : ~ In Commit (executed start)).
  { cbn. intros H. repeat (destruct H as [H | H]; [discriminate|]). exact H. }
  assert (Hnext : forall t key file m d c r c',
             insert_mapped t key file m d c = (r, c') ->
             ~ In Commit (executed c) -> ~ In Commit (executed c')).
  { intros t key file m d c r c'. unfold insert_mapped, bind, lift.
    destruct (drop_duplicates_subset key d); [intros [= <- <-]; auto|].
    destruct (missing_columns m d0); [|unfold raise; intros [= <- <-]; auto].
    unfold executemany_insert, bind, get, put, log_stmt, modify, raise.
    destruct (get_table t (tables c)); [|intros [= <- <-]; auto].
    destruct (insert_all t (rows (ordered m d0)) l) as [held' ok].
    destruct ok; intros [= <- <-]; cbn [executed]; [|auto].
    intros Hc Hin. apply in_app_or in Hin. destruct Hin as [Hin | [Hin | []]];
      [auto | discriminate]. }
  destruct (read_csv "customers_prepared.csv"); [injection Hphase as _ <-; exact Hstart|].
  destruct (read_csv "products_prepared.csv"); [injection Hphase as _ <-; exact Hstart|].
  destruct (read_csv "sales_prepared.csv"); [injection Hphase as _ <-; exact Hstart|].
  destruct (insert_customers d start) as [[ec | uc] c1] eqn:H1.
  { injection Hphase as _ <-. exact (Hnext _ _ _ _ _ _ _ _ H1 Hstart). }
  destruct (insert_products d0 c1) as [[ep | up] c2] eqn:H2.
  { injection Hphase as _ <-.
    exact (Hnext _ _ _ _ _ _ _ _ H2 (Hnext _ _ _ _ _ _ _ _ H1 Hstart)). }
  exact (Hnext _ _ _ _ _ _ _ _ Hphase
           (Hnext _ _ _ _ _ _ _ _ H2 (Hnext _ _ _ _ _ _ _ _ H1 Hstart))).
Qed.

(** X7.  What a load does and returns does not depend on the rows the
    database held: from any two databases in which the tables that exist
    are the ones [create_schema] makes, it runs the same statements to the
    same outcome, and when it succeeds it leaves the same tables, so a load
    replaces whatever rows were there. *)
Theorem load_replaces_contents (read_csv : string -> result DataFrame)
    (db1 db2 : Warehouse) :
  fst (run_load read_csv db1) = fst (run_load read_csv db2)
  /\ (forall stmts db', run_load read_csv db1 = (inr tt, stmts, db') ->
                        run_load read_csv db2 = (inr tt, stmts, db')).
Proof.
  rewrite !run_load_shape.
  destruct (insert_phase read_csv start) as [[e | u] cur]; split; try reflexivity.
  - discriminate.
  - intros stmts db' H. exact H.
Qed.

(** X8.  The three prepared files are read, customers, then products, then
    sales, before anything is inserted: when one of them cannot be read the
    load raises the exception of the first that cannot, with no INSERT run,
    only the schema statements and the deletes, and the deletes are
    dropped. *)
Theorem unreadable_file_inserts_nothing (read_csv : string -> result DataFrame)
    (db : Warehouse) (e : exn) :
  first_unreadable read_csv ["customers_prepared.csv"; "products_prepared.csv";
                             "sales_prepared.csv"] = Some e ->
  run_load read_csv db = (inl e, schema_stmts ++ delete_stmts, with_schema db).
Proof.
  rewrite run_load_shape. unfold insert_phase, bind, lift. cbn [first_unreadable].
  destruct (read_csv "customers_prepared.csv") as [ec | dc]; [now intros [= <-]|].
  destruct (read_csv "products_prepared.csv") as [ep | dp]; [now intros [= <-]|].
  destruct (read_csv "sales_prepared.csv") as [es | ds]; [now intros [= <-]|].
  discriminate.
Qed.

End LoadOutcomes.

Section LoadOutcomeRuns.
Import Frame StateExn EtlToDw Statements Runs MoreRuns.

Lemma insert_tuples_by_label_witness :
  exists i,
    index_of "CustomerID" (columns customers_csv) = Some i
    /\ executed (snd (insert_customers customers_csv start))
       = executed start
         ++ [InsertInto Customer
               (map (Statements.tuple_of (columns customers_csv)
                       (map snd customer_mapping))
                    (first_per_key value_eqb (cell i) (rows customers_csv)))].
Proof.
  apply (proj1 insert_tuples_by_label customers_csv start
           (snd (insert_customers customers_csv start)) tt).
  reflexivity.
Defined.

Lemma insert_keys_distinct_witness :
  exists tuples,
    executed (snd (insert_customers customers_csv start))
    = executed start ++ [InsertInto Customer tuples]
    /\ Forall (fun r => List.length r = 6) tuples
    /\ NoDup (map (cell 0) tuples).
Proof.
  apply (proj1 insert_keys_distinct customers_csv start
           (snd (insert_customers customers_csv start)) tt).
  reflexivity.
Defined.

Lemma insert_reports_all_missing_witness :
  insert_customers
    {| columns := ["CustomerID"; "Name"]; rows := [[VInt 1; VText "ann"]] |} start
  = (inl (ValueError "Missing columns in customers_prepared.csv"
            ["Region"; "JoinDate"; "LoyaltyPoints"; "PreferredContactMethod"]), start).
Proof.
  apply (proj1 insert_reports_all_missing
           {| columns := ["CustomerID"; "Name"]; rows := [[VInt 1; VText "ann"]] |} start).
  - right. simpl. tauto.
  - discriminate.
Defined.

Lemma insert_header_only_frame_witness :
  exists cur',
    insert_products {| columns := map snd product_mapping; rows := [] |} start
    = (inr tt, cur')
    /\ (forall t', get_table t' (tables cur') = get_table t' (tables start))
    /\ executed cur' = executed start ++ [InsertInto Product []].
Proof.
  apply (proj1 (proj2 insert_header_only_frame)
           {| columns := map snd product_mapping; rows := [] |} start []);
    reflexivity.
Defined.

Lemma failed_load_keeps_rows_witness :
  run_load no_files one_customer_db
  = (inl (FileNotFoundError "customers_prepared.csv"),
     schema_stmts ++ delete_stmts, with_schema one_customer_db)
  /\ get_table Customer (with_schema one_customer_db) = customer one_customer_db.
Proof.
  split; [reflexivity|].
  destruct (failed_load_keeps_rows no_files one_customer_db
              (FileNotFoundError "customers_prepared.csv")
              (schema_stmts ++ delete_stmts) (with_schema one_customer_db) eq_refl)
    as (_ & Hkeep & _).
  exact (Hkeep Customer _ eq_refl).
Defined.

(** The customers file is read, the products file is locked, the sales
    file is not there: the load raises what the products file raised. *)
Lemma unreadable_file_inserts_nothing_witness :
  first_unreadable customers_only ["customers_prepared.csv"; "products_prepared.csv";
                                   "sales_prepared.csv"]
  = Some (OtherError "Permission denied")
  /\ run_load customers_only one_customer_db
     = (inl (OtherError "Permission denied"),
        schema_stmts ++ delete_stmts, with_schema one_customer_db).
Proof.
  split; [reflexivity|].
  apply (unreadable_file_inserts_nothing customers_only one_customer_db
           (OtherError "Permission denied")).
  reflexivity.
Defined.

End LoadOutcomeRuns.

(* ===================================================================== *)
(** * Reading the raw files                                               *)
(* ===================================================================== *)

Section ReadData.
Import Frame StateExn DataPrep Runs.
Local Open Scope monad_scope.

Lemma read_data_run (env : Env) (path : string) (w : World) :
  exists (df : DataFrame) (lines : list (level * string)),
    read_data env path w
    = (inr df, {| written := written w; log := log w ++ lines |})
    /\ (forall e, read_csv env path = inl e -> df = empty_frame)
    /\ (forall d, read_csv env path = inr d -> df = d).
Proof.
  unfold read_data, try_except, bind, lift, logger, modify, ret.
  cbn [written log].
  destruct (read_csv env path) as [e | d].
  - destruct e; cbn [written log]; do 2 eexists;
      (split; [rewrite <- app_assoc; reflexivity
              | split; [reflexivity | discriminate]]).
  - do 2 eexists.
    split; [rewrite <- app_assoc; reflexivity
           | split; [discriminate | now intros ? [= <-]]].
Qed.

(** C10.  [read_data] returns a frame on every path: the frame read, or the
    empty frame when [pd.read_csv] raised, and writes nothing.  When the
    loop of [main] comes to an entity whose raw file cannot be read, it goes
    on with the remaining entities from a world that differs in its log
    lines only: the cleaner is not called and nothing is saved for it. *)
Theorem read_data_never_raises (env : Env) (w : World) :
  (forall path,
     exists (df : DataFrame) (w' : World),
       read_data env path w = (inr df, w')
       /\ written w' = written w
       /\ (forall e, read_csv env path = inl e -> df = empty_frame)
       /\ (forall d, read_csv env path = inr d -> df = d))
  /\ (forall raw_filename prepared_filename clean_function rest e,
        read_csv env (RAW_DATA_DIR ++ raw_filename) = inl e ->
        exists w' : World,
          read_data env (RAW_DATA_DIR ++ raw_filename) w = (inr empty_frame, w')
          /\ written w' = written w
          /\ process_files env
               ((raw_filename, prepared_filename, clean_function) :: rest) w
             = process_files env rest w').
Proof.
  split.
  - intros path. destruct (read_data_run env path w) as (df & lines & Hrun & He & Hd).
    exists df. eexists. split; [exact Hrun|]. cbn [written]. auto.
  - intros raw_filename prepared_filename clean_function rest e Hfail.
    destruct (read_data_run env (RAW_DATA_DIR ++ raw_filename) w)
      as (df & lines & Hrun & He & _).
    rewrite (He e Hfail) in Hrun.
    eexists. split; [exact Hrun|]. split; [reflexivity|].
    cbn [process_files]. unfold bind at 1. rewrite Hrun.
    reflexivity.
Qed.

(** Only the products file is there: the customers and sales entities are
    skipped, the products file is cleaned and saved. *)
Example main_skips_unreadable :
  let cleaner := fun df : DataFrame => ret df in
  exists w,
    main cleaner cleaner cleaner only_products {| written := []; log := [] |}
    = (inr tt, w)
    /\ written w
       = [("products_prepared.csv", {| columns := ["productid"]; rows := [[VInt 101]] |})].
Proof. eexists. split; reflexivity. Qed.

End ReadData.

(* ===================================================================== *)
(** * More of the cube                                                    *)
(* ===================================================================== *)

Section CubeOutcomes.
Import Text Frame Cubing Runs.

Lemma rstrip_no_trailing (p : ascii -> bool) (s : string) :
  ends_with p (rstrip_by p s) = false.
Proof.
  induction s as [|c s IH]; simpl; [reflexivity|].
  destruct (rstrip_by p s) as [|d r] eqn:Hr.
  - destruct (p c) eqn:Hc; simpl; [reflexivity | exact Hc].
  - exact IH.
Qed.

Lemma generate_column_names_length (dimensions : list string) (metrics : metrics_t) :
  List.length (generate_column_names dimensions metrics)
  = List.length dimensions + List.length (metric_names metrics).
Proof. rewrite generate_column_names_spec. now rewrite length_map, length_app. Qed.

(** X9.  No column name that [generate_column_names] produces ends with an
    underscore, and it produces one name per dimension and one per
    (column, function) pair. *)
Theorem generated_names_no_trailing_underscore (dimensions : list string)
    (metrics : metrics_t) :
  Forall (fun name => ends_with is_underscore name = false)
         (generate_column_names dimensions metrics)
  /\ List.length (generate_column_names dimensions metrics)
     = List.length dimensions + List.length (metric_names metrics).
Proof.
  split; [|apply generate_column_names_length].
  rewrite generate_column_names_spec.
  apply Forall_forall. intros name Hin. apply in_map_iff in Hin.
  destruct Hin as [col [<- _]]. apply rstrip_no_trailing.
Qed.

(** X10.  [create_olap_cube] only relabels what the group-by returns.  On a
    non-empty frame a group-by exception comes out as it is; a grouped frame
    with one column per dimension and per pair comes out with its records
    untouched under the generated labels; a grouped frame with another
    number of columns makes the label assignment raise.  An empty frame
    gives the empty frame without any grouping. *)
Theorem create_olap_cube_outcomes (E : GroupEngine) (data_df : DataFrame)
    (dimensions : list string) (metrics : metrics_t) :
  (empty data_df = true ->
   create_olap_cube data_df dimensions metrics = inr empty_frame)
  /\ (empty data_df = false ->
      (forall e, groupby_agg data_df dimensions metrics = inl e ->
                 create_olap_cube data_df dimensions metrics = inl e)
      /\ (forall grouped,
            groupby_agg data_df dimensions metrics = inr grouped ->
            (List.length (columns grouped)
             = List.length dimensions + List.length (metric_names metrics) ->
             create_olap_cube data_df dimensions metrics
             = inr {| columns := generate_column_names dimensions metrics;
                      rows := rows grouped |})
            /\ (List.length (columns grouped)
                <> List.length dimensions + List.length (metric_names metrics) ->
                create_olap_cube data_df dimensions metrics
                = inl (ValueError "Length mismatch"
                         (generate_column_names dimensions metrics))))).
Proof.
  unfold create_olap_cube. split.
  - intros ->. reflexivity.
  - intros ->. split.
    + intros e ->. reflexivity.
    + intros grouped ->.
      pose proof (generate_column_names_length dimensions metrics) as Hlen.
      split; intros H.
      * rewrite Hlen, H, Nat.eqb_refl. reflexivity.
      * rewrite Hlen.
        destruct (Nat.eqb_spec (List.length dimensions + List.length (metric_names metrics))
                               (List.length (columns grouped))) as [Heq | Hne];
          [congruence | reflexivity].
Qed.

End CubeOutcomes.

(* ===================================================================== *)
(** * More of the preparation run                                         *)
(* ===================================================================== *)

Section PreparationRun.
Import Frame StateExn DataPrep Statements Runs MoreRuns.
Local Open Scope monad_scope.

Lemma logger_run (l : level) (msg : string) (w : World) :
  logger l msg w = (inr tt, {| written := written w; log := log w ++ [(l, msg)] |}).
Proof. reflexivity. Qed.

(** What [save_prepared_data] can do to the files written. *)
Lemma save_prepared_data_written (env : Env) (df : DataFrame) (filename : string)
    (w w' : World) (r : result unit) :
  save_prepared_data env df filename w = (r, w') ->
  (written w' = written w /\ (r = inr tt \/ exists e, mkdir env = Some e /\ r = inl e))
  \/ (written w' = written w ++ [(filename, df)]
      /\ mkdir env = None /\ to_csv env filename = None /\ r = inr tt).
Proof.
  unfold save_prepared_data.
  destruct (mkdir env) as [e|] eqn:Hm.
  - unfold raise. intros [= <- <-]. left. eauto.
  - unfold try_except. destruct (to_csv env filename) as [e|] eqn:Ht.
    + unfold raise. rewrite logger_run. intros [= <- <-]. left. auto.
    + unfold bind, modify. rewrite logger_run. cbn [written log].
      intros [= <- <-]. right. auto.
Qed.

Lemma read_data_written (env : Env) (path : string) (w : World) :
  exists df w', read_data env path w = (inr df, w') /\ written w' = written w.
Proof.
  unfold read_data, try_except, bind, lift, logger, modify, ret.
  destruct (read_csv env path) as [e | d]; [destruct e|]; do 2 eexists;
    split; reflexivity.
Qed.

Lemma subseq_refl {A : Type} (l : list A) : subseq l l.
Proof. induction l; [apply subseq_nil | now apply subseq_take]. Qed.

Lemma subseq_nil_l {A : Type} (l : list A) : subseq [] l.
Proof. induction l; constructor; auto. Qed.

(** X11.  With cleaners that write no file, whatever the run meets and
    however it ends, the prepared files it has written are, in order, files
    named by the entries it was given, each at most once; and when the
    prepared directory cannot be made it writes none. *)
Theorem process_files_writes_listed_names (env : Env) (files : list entry) :
  Forall (fun e => writes_nothing (snd e)) files ->
  forall w r w',
    process_files env files w = (r, w') ->
    exists added,
      written w' = written w ++ added
      /\ subseq (map fst added) (map prepared_name files)
      /\ (mkdir env <> None -> added = []).
Proof.
  induction 1 as [|[[raw_filename prepared_filename] clean_function] rest Hclean _ IH];
    intros w r w' Hrun.
  - injection Hrun as <- <-. exists []. rewrite app_nil_r.
    repeat split. constructor.
  - cbn [process_files] in Hrun. unfold bind at 1 in Hrun.
    destruct (read_data_written env (RAW_DATA_DIR ++ raw_filename) w)
      as (df & w1 & Hread & Hw1).
    rewrite Hread in Hrun. unfold bind at 1 in Hrun.
    cbn [snd] in Hclean. cbn [map prepared_name fst snd].
    destruct (negb (empty df)).
    + unfold bind at 1 in Hrun.
      pose proof (Hclean df w1) as Hcw.
      destruct (clean_function df w1) as [[e | cleaned] w2]; cbn [snd] in Hcw.
      * injection Hrun as <- <-. exists [].
        rewrite app_nil_r. split; [congruence|]. split; [apply subseq_nil_l | reflexivity].
      * destruct (save_prepared_data env cleaned prepared_filename w2)
          as [[e | u] w3] eqn:Hsave.
        -- injection Hrun as <- <-.
           apply save_prepared_data_written in Hsave.
           destruct Hsave as [[Hw3 _] | [_ [_ [_ Hr]]]]; [|discriminate].
           exists []. rewrite app_nil_r.
           split; [congruence|]. split; [apply subseq_nil_l | reflexivity].
        -- destruct (IH _ _ _ Hrun) as (added & Hadd & Hsub & Hmk).
           apply save_prepared_data_written in Hsave.
           destruct Hsave as [[Hw3 _] | [Hw3 [Hm [_ _]]]].
           ++ exists added. split; [congruence|].
              split; [now constructor | exact Hmk].
           ++ exists ((prepared_filename, cleaned) :: added).
              split; [rewrite Hadd, Hw3, Hcw, Hw1, <- app_assoc; reflexivity|].
              split; [cbn [map fst]; now constructor|].
              intros Hne. congruence.
    + unfold ret in Hrun.
      destruct (IH _ _ _ Hrun) as (added & Hadd & Hsub & Hmk).
      exists added. split; [congruence|]. split; [now constructor | exact Hmk].
Qed.

(** What [read_data] hands back: the frame read, or the empty frame. *)
Lemma read_data_frame (env : Env) (path : string) (w : World) :
  exists df w',
    read_data env path w = (inr df, w')
    /\ (read_csv env path = inr df \/ df = empty_frame).
Proof.
  unfold read_data, try_except, bind, lift, logger, modify, ret.
  destruct (read_csv env path) as [e | d]; [destruct e|]; do 2 eexists;
    split; try reflexivity; auto.
Qed.

Lemma process_files_returns (env : Env) (files : list entry) :
  mkdir env = None ->
  Forall (cleans_its_file env) files ->
  forall w, exists w', process_files env files w = (inr tt, w').
Proof.
  intros Hm. induction 1 as [|[[raw_filename prepared_filename] clean_function] rest Hc _ IH];
    intros w.
  - eexists. reflexivity.
  - cbn [process_files]. unfold bind at 1.
    destruct (read_data_frame env (RAW_DATA_DIR ++ raw_filename) w)
      as (df & w1 & -> & Hread).
    unfold bind at 1. unfold cleans_its_file in Hc. cbn [fst snd] in Hc.
    destruct (empty df) eqn:He; cbn [negb].
    + apply IH.
    + destruct Hread as [Hread | ->]; [|discriminate He].
      unfold bind at 1. destruct (Hc df Hread He w1) as (cleaned & w2 & ->).
      destruct (save_prepared_data env cleaned prepared_filename w2)
        as [[e | u] w3] eqn:Hsave.
      * apply save_prepared_data_written in Hsave.
        destruct Hsave as [[_ [H | (e' & H & _)]] | (_ & _ & _ & H)]; congruence.
      * apply IH.
Qed.

(** X12.  [main] returns normally whenever the prepared directory can be
    made and each cleaner returns on the frame the run hands it, the frame
    with records read from its raw file: a raw file that cannot be read or
    holds no record is skipped without its cleaner being called, and a
    prepared file that cannot be written is logged, not raised. *)
Theorem main_returns
    (clean_customer_data clean_product_data clean_sales_data : DataFrame -> IO DataFrame)
    (env : Env) (w : World) :
  mkdir env = None ->
  Forall (cleans_its_file env)
         (files_to_process clean_customer_data clean_product_data clean_sales_data) ->
  exists w',
    main clean_customer_data clean_product_data clean_sales_data env w = (inr tt, w').
Proof.
  intros Hm Hc. unfold main. unfold bind at 1. rewrite logger_run.
  unfold bind at 1.
  destruct (process_files_returns env
              (files_to_process clean_customer_data clean_product_data clean_sales_data)
              Hm Hc) with (w := {| written := written w;
                                   log := log w ++ [(INFO,
                                     "Starting comprehensive data preparation using DataScrubber...")] |})
    as [w1 ->].
  rewrite logger_run. eexists. reflexivity.
Qed.

(** The run up to the call of the customers cleaner. *)
Lemma main_customers_cleaner_raises
    (clean_customer_data clean_product_data clean_sales_data : DataFrame -> IO DataFrame)
    (env : Env) (w w2 : World) (d : DataFrame) (e : exn) :
  read_csv env (RAW_DATA_DIR ++ "customers_data.csv")%string = inr d ->
  empty d = false ->
  clean_customer_data d
    {| written := written w;
       log := ((log w
                ++ [(INFO, "Starting comprehensive data preparation using DataScrubber...")])
               ++ [(INFO, ("Reading raw data from "
                           ++ (RAW_DATA_DIR ++ "customers_data.csv"))%string)])
              ++ [(INFO, ((RAW_DATA_DIR ++ "customers_data.csv")
                          ++ ": loaded DataFrame")%string)] |}
  = (inl e, w2) ->
  main clean_customer_data clean_product_data clean_sales_data env w = (inl e, w2).
Proof.
  intros Hread Hne Hclean.
  unfold main, files_to_process, process_files, read_data, try_except, bind, lift,
    logger, modify, ret.
  cbn [written log]. rewrite Hread. rewrite Hne. cbn [negb written log].
  rewrite Hclean. reflexivity.
Qed.

(** X13.  A cleaner that raises stops the run: when the customers file reads
    as a frame with records and its cleaner raises on it, [main] raises the
    same exception and writes nothing, and what it does is the same whatever
    the products and sales files and cleaners are (unlike an unreadable
    file, which is skipped). *)
Theorem cleaner_exception_stops_main
    (clean_customer_data clean_product_data clean_sales_data : DataFrame -> IO DataFrame)
    (env : Env) (w : World) (d : DataFrame) (e : exn) :
  read_csv env (RAW_DATA_DIR ++ "customers_data.csv")%string = inr d ->
  empty d = false ->
  (forall w1, exists w2, clean_customer_data d w1 = (inl e, w2)
                         /\ written w2 = written w1) ->
  exists w',
    main clean_customer_data clean_product_data clean_sales_data env w = (inl e, w')
    /\ written w' = written w
    /\ (forall other_products other_sales env',
          read_csv env' (RAW_DATA_DIR ++ "customers_data.csv")%string = inr d ->
          main clean_customer_data other_products other_sales env' w = (inl e, w')).
Proof.
  intros Hread Hne Hraise.
  match type of (main_customers_cleaner_raises clean_customer_data clean_product_data
                   clean_sales_data env w w d e Hread Hne) with
  | clean_customer_data d ?w1 = _ -> _ =>
      destruct (Hraise w1) as (w2 & Hc & Hw2)
  end.
  exists w2. split; [|split].
  - now apply main_customers_cleaner_raises with (d := d).
  - exact Hw2.
  - intros other_products other_sales env' Hread'.
    now apply main_customers_cleaner_raises with (d := d).
Qed.

End PreparationRun.

(* ===================================================================== *)
(** * The stand-alone preparation scripts                                 *)
(* ===================================================================== *)

Section PrepareScripts.
Import Frame FrameOps Statements FrameFacts KeepFirstFacts.

Lemma frame_eq (a b : DataFrame) :
  columns a = columns b -> rows a = rows b -> a = b.
Proof. destruct a, b. simpl. intros -> ->. reflexivity. Qed.

Lemma has_column_same (a b : DataFrame) (name : string) :
  columns a = columns b -> has_column a name = has_column b name.
Proof. unfold has_column. now intros ->. Qed.

Lemma empty_false_rows (df : DataFrame) :
  empty df = false -> columns df <> [] /\ rows df <> [].
Proof.
  unfold empty. destruct (columns df); [discriminate|].
  destruct (rows df); [discriminate|]. split; discriminate.
Qed.

Lemma empty_of_parts (df : DataFrame) :
  columns df <> [] -> rows df <> [] -> empty df = false.
Proof.
  unfold empty. destruct (columns df); [congruence|].
  destruct (rows df); [congruence | reflexivity].
Qed.

Lemma drop_duplicates_idem (df : DataFrame) :
  drop_duplicates (drop_duplicates df) = drop_duplicates df.
Proof.
  destruct (empty df) eqn:He.
  - assert (H : drop_duplicates df = df)
      by (unfold drop_duplicates; now rewrite He).
    now rewrite !H.
  - assert (H : drop_duplicates df
                = {| columns := columns df;
                     rows := keep_first row_eqb (fun r => r) [] (rows df) |})
      by (unfold drop_duplicates; now rewrite He).
    destruct (empty_false_rows df He) as [Hc Hr].
    rewrite H. unfold drop_duplicates.
    rewrite empty_of_parts; cbn [columns rows].
    + now rewrite keep_first_idem.
    + exact Hc.
    + now apply keep_first_nonempty.
Qed.

Lemma drop_duplicates_subset_idem (name : string) (df out : DataFrame) :
  drop_duplicates_subset name df = inr out ->
  drop_duplicates_subset name out = inr out.
Proof.
  intros H. unfold drop_duplicates_subset in H.
  destruct (empty df) eqn:He.
  - injection H as <-. unfold drop_duplicates_subset. now rewrite He.
  - destruct (index_of name (columns df)) as [i|] eqn:Hi; [|discriminate].
    injection H as <-. unfold drop_duplicates_subset. cbn [columns rows].
    destruct (empty {| columns := columns df;
                       rows := keep_first value_eqb (cell i) [] (rows df) |});
      [reflexivity|].
    rewrite Hi. now rewrite (keep_first_by_idem value_eqb (cell i)).
Qed.

(** X14.  [remove_duplicates] of the sales script never raises and keeps
    the columns.  With a [TransactionID] column the records left are the
    first record of each transaction id, ids being one when pandas compares
    them equal ([value_eqb]), so the ids left are pairwise different;
    without one, no record of a frame that has records is left twice.  A
    second call changes nothing. *)
Theorem sales_remove_duplicates_spec (df : DataFrame) :
  exists out,
    PrepareSales.remove_duplicates df = inr out
    /\ columns out = columns df
    /\ List.length (rows out) <= List.length (rows df)
    /\ incl (rows out) (rows df)
    /\ (forall i, index_of "TransactionID" (columns df) = Some i ->
                  rows out = first_per_key value_eqb (cell i) (rows df)
                  /\ NoDup (map (cell i) (rows out)))
    /\ (~ In "TransactionID" (columns df) -> empty df = false -> NoDup (rows out))
    /\ PrepareSales.remove_duplicates out = inr out.
Proof.
  unfold PrepareSales.remove_duplicates.
  destruct (has_column df "TransactionID") eqn:Hh.
  - pose proof (proj1 (has_column_In _ _) Hh) as Hin.
    apply index_of_In in Hin. destruct Hin as [i Hi].
    destruct (drop_duplicates_subset_present _ _ _ Hi) as (out & Hrun & Hcols & Hrows).
    exists out. split; [exact Hrun|]. split; [exact Hcols|].
    split; [rewrite Hrows; apply keep_first_length_le|].
    split; [rewrite Hrows; apply keep_first_incl|].
    split.
    { intros i' Hi'. assert (i' = i) by congruence. subst i'. rewrite Hrows. split.
      - apply (keep_first_first_per_key value_eqb (cell i) key_form_of value_eqb_form).
      - apply (keep_first_keys_NoDup value_eqb (cell i) key_form_of value_eqb_form). }
    split.
    { intros Hout. exfalso. apply Hout. now apply has_column_In. }
    rewrite (has_column_same out df) by exact Hcols. rewrite Hh.
    now apply drop_duplicates_subset_idem with (df := df).
  - exists (drop_duplicates df). split; [reflexivity|].
    destruct (drop_duplicates_rows df) as [Hcols Hrows].
    split; [exact Hcols|].
    assert (Hcase : empty df = true /\ drop_duplicates df = df
                    \/ empty df = false
                       /\ rows (drop_duplicates df)
                          = keep_first row_eqb (fun r => r) [] (rows df)).
    { destruct (empty df) eqn:He; [left | right; auto].
      split; [reflexivity|]. unfold drop_duplicates. now rewrite He. }
    split.
    { destruct Hcase as [[_ ->] | [_ ->]]; [lia | apply keep_first_length_le]. }
    split.
    { destruct Hcase as [[_ ->] | [_ ->]]; [apply incl_refl | apply keep_first_incl]. }
    split.
    { intros i Hi. exfalso. apply has_column_not_In in Hh. apply Hh.
      apply index_of_In. eauto. }
    split.
    { intros _ He. destruct Hcase as [[He' _] | [_ ->]]; [congruence|].
      apply keep_first_NoDup. }
    rewrite (has_column_same (drop_duplicates df) df) by exact Hcols. rewrite Hh.
    now rewrite drop_duplicates_idem.
Qed.

(** X15.  [remove_duplicates] of the products script has no guard on its
    key: on a frame with records and no [productid] column it raises
    [KeyError]; an empty frame comes back as it is.  With the column there,
    the second pass over whole records removes nothing: the result is the
    first record of each product id, ids being one when pandas compares
    them equal ([value_eqb]). *)
Theorem products_remove_duplicates_spec (df : DataFrame) :
  (empty df = true -> PrepareProducts.remove_duplicates df = inr df)
  /\ (empty df = false -> ~ In "productid" (columns df) ->
      PrepareProducts.remove_duplicates df = inl (KeyError ["productid"]))
  /\ (forall i, index_of "productid" (columns df) = Some i ->
      exists out,
        PrepareProducts.remove_duplicates df = inr out
        /\ drop_duplicates_subset "productid" df = inr out
        /\ columns out = columns df
        /\ rows out = first_per_key value_eqb (cell i) (rows df)
        /\ NoDup (map (cell i) (rows out))).
Proof.
  unfold PrepareProducts.remove_duplicates. split; [|split].
  - intros He. unfold drop_duplicates_subset. rewrite He.
    unfold drop_duplicates. now rewrite He.
  - intros He Hout. apply index_of_None in Hout.
    unfold drop_duplicates_subset. now rewrite He, Hout.
  - intros i Hi.
    destruct (drop_duplicates_subset_present _ _ _ Hi) as (out & Hrun & Hcols & Hrows).
    assert (Hnd : NoDup (map (cell i) (rows out))).
    { rewrite Hrows. apply (keep_first_keys_NoDup value_eqb (cell i) key_form_of value_eqb_form). }
    exists out. rewrite Hrun.
    split.
    { f_equal. unfold drop_duplicates. destruct (empty out); [reflexivity|].
      apply frame_eq; cbn [columns rows]; [reflexivity|].
      apply (keep_first_all_kept row_eqb (fun r => r) (map key_form_of) row_eqb_form).
      - apply (key_forms_row_forms i). rewrite Hrows.
        apply (keep_first_forms_NoDup value_eqb (cell i) key_form_of value_eqb_form).
      - reflexivity. }
    split; [reflexivity|]. split; [exact Hcols|].
    split; [|exact Hnd].
    rewrite Hrows. apply (keep_first_first_per_key value_eqb (cell i) key_form_of value_eqb_form).
Qed.

End PrepareScripts.

Section ValidateData.
Import Frame FrameOps Statements FrameFacts KeepFirstFacts.

Lemma select_mask_filter (op : against_zero) (i : nat) (rs : list (list value)) :
  forall bs, mask_at op i rs = inr bs -> select_mask bs rs = filter (passes op i) rs.
Proof.
  induction rs as [|r rs IH]; simpl; intros bs.
  - intros [= <-]. reflexivity.
  - unfold passes at 1.
    destruct (compare_cell op (cell i r)) as [e | b]; [discriminate|].
    destruct (mask_at op i rs) as [e | bs']; [discriminate|].
    intros [= <-]. simpl. now rewrite (IH bs' eq_refl).
Qed.

Lemma filter_against_zero_ok (op : against_zero) (i : nat) (df out : DataFrame) :
  filter_against_zero op i df = inr out ->
  columns out = columns df
  /\ rows out = filter (passes op i) (rows df)
  /\ Forall (fun r => holds op (cell i r)) (rows out).
Proof.
  unfold filter_against_zero.
  destruct (mask_at op i (rows df)) as [e | bs] eqn:Hm; [discriminate|].
  intros [= <-]. cbn [columns rows].
  rewrite (select_mask_filter _ _ _ _ Hm).
  split; [reflexivity|]. split; [reflexivity|].
  apply Forall_forall. intros r Hr. apply filter_In in Hr. destruct Hr as [_ Hp].
  unfold passes in Hp. unfold holds.
  destruct (compare_cell op (cell i r)); [discriminate | now subst].
Qed.

Lemma keep_non_negative_ok (name : string) (df out : DataFrame) :
  PrepareProducts.keep_non_negative name df = inr out ->
  columns out = columns df
  /\ (exists p, rows out = filter p (rows df))
  /\ (forall j, index_of name (columns df) = Some j ->
                Forall (fun r => holds Ge0 (cell j r)) (rows out)).
Proof.
  unfold PrepareProducts.keep_non_negative.
  destruct (index_of name (columns df)) as [j|] eqn:Hj.
  - destruct (mask_at Lt0 j (rows df)); [discriminate|].
    intros H. apply filter_against_zero_ok in H. destruct H as (Hc & Hr & Hf).
    split; [exact Hc|]. split; [eauto|].
    intros j' [= <-]. exact Hf.
  - intros [= <-]. split; [reflexivity|]. split; [|discriminate].
    exists (fun _ => true). symmetry. apply forallb_filter_id.
    apply forallb_forall. reflexivity.
Qed.

Lemma filter_incl_of {A : Type} (l l' : list A) :
  (exists p, l' = filter p l) -> incl l' l.
Proof. intros [p ->]. apply incl_filter. Qed.

(** The [productid] block of [validate_data], when it returns. *)
Lemma productid_block_ok (df df1 : DataFrame) :
  match index_of "productid" (columns df) with
  | None => inr df
  | Some i =>
      match filter_against_zero Gt0 i (dropna_at i df) with
      | inl e => inl e
      | inr positive => drop_duplicates_subset "productid" positive
      end
  end = inr df1 ->
  columns df1 = columns df
  /\ incl (rows df1) (rows df)
  /\ (forall i, index_of "productid" (columns df) = Some i ->
                Forall (fun r => holds Gt0 (cell i r)) (rows df1)
                /\ NoDup (map (fun r => key_form_of (cell i r)) (rows df1))).
Proof.
  destruct (index_of "productid" (columns df)) as [i|] eqn:Hi.
  - destruct (filter_against_zero Gt0 i (dropna_at i df)) as [e | positive] eqn:Hf;
      [discriminate|].
    apply filter_against_zero_ok in Hf. destruct Hf as (Hc & Hr & Hall).
    cbn [dropna_at columns rows] in Hc, Hr.
    assert (Hi' : index_of "productid" (columns positive) = Some i) by now rewrite Hc.
    destruct (drop_duplicates_subset_present _ _ _ Hi') as (d1 & Hd1 & Hc1 & Hr1).
    rewrite Hd1. intros [= <-].
    assert (Hincl : incl (rows d1) (rows positive)).
    { rewrite Hr1. apply keep_first_incl. }
    split; [congruence|]. split.
    + intros r Hin. apply Hincl in Hin. rewrite Hr in Hin.
      apply filter_In in Hin. destruct Hin as [Hin _].
      apply filter_In in Hin. tauto.
    + intros i' [= <-]. split.
      * apply (incl_Forall Hincl). exact Hall.
      * rewrite Hr1.
        apply (keep_first_forms_NoDup value_eqb (cell i) key_form_of value_eqb_form).
  - intros [= <-]. split; [reflexivity|]. split; [apply incl_refl | discriminate].
Qed.

(** [validate_data], when it returns; no two product ids left are one key. *)
Lemma validate_data_facts (df out : DataFrame) :
  PrepareProducts.validate_data df = inr out ->
  columns out = columns df
  /\ incl (rows out) (rows df)
  /\ (forall i, index_of "productid" (columns df) = Some i ->
                Forall (fun r => holds Gt0 (cell i r)) (rows out)
                /\ NoDup (map (fun r => key_form_of (cell i r)) (rows out)))
  /\ (forall j, index_of "unitprice" (columns df) = Some j ->
                Forall (fun r => holds Ge0 (cell j r)) (rows out))
  /\ (forall k, index_of "stockquantity" (columns df) = Some k ->
                Forall (fun r => holds Ge0 (cell k r)) (rows out)).
Proof.
  unfold PrepareProducts.validate_data. intros Hrun.
  destruct (match index_of "productid" (columns df) with
            | None => inr df
            | Some i =>
                match filter_against_zero Gt0 i (dropna_at i df) with
                | inl e => inl e
                | inr positive => drop_duplicates_subset "productid" positive
                end
            end) as [e | df1] eqn:Hblock; [discriminate|].
  apply productid_block_ok in Hblock. destruct Hblock as (Hc1 & Hin1 & Hid).
  destruct (PrepareProducts.keep_non_negative "unitprice" df1) as [e | df2] eqn:H2;
    [discriminate|].
  apply keep_non_negative_ok in H2. destruct H2 as (Hc2 & Hf2 & Hprice).
  apply keep_non_negative_ok in Hrun. destruct Hrun as (Hc3 & Hf3 & Hstock).
  pose proof (filter_incl_of _ _ Hf2) as Hin2.
  pose proof (filter_incl_of _ _ Hf3) as Hin3.
  split; [congruence|].
  split; [intros r Hr; auto|].
  split.
  { intros i Hi. destruct (Hid i Hi) as [Hpos Hnd]. split.
    - apply (incl_Forall (l1 := rows df1)); [intros r Hr; auto | exact Hpos].
    - destruct Hf2 as [p2 Hp2]. destruct Hf3 as [p3 Hp3].
      rewrite Hp3, Hp2. now do 2 apply keys_distinct_after_filter. }
  split.
  { intros j Hj. apply (incl_Forall Hin3). apply Hprice. congruence. }
  intros k Hk. apply Hstock. congruence.
Qed.

(** X16.  What [validate_data] returns keeps the columns and holds records
    of the input only, and it meets the business rules: under [productid],
    when the column is there, every cell is present and greater than 0 and
    no two are equal; under [unitprice] and under [stockquantity], when
    there, every cell is present and at least 0. *)
Theorem validate_data_guarantees (df out : DataFrame) :
  PrepareProducts.validate_data df = inr out ->
  columns out = columns df
  /\ incl (rows out) (rows df)
  /\ (forall i, index_of "productid" (columns df) = Some i ->
                Forall (fun r => holds Gt0 (cell i r)) (rows out)
                /\ NoDup (map (cell i) (rows out)))
  /\ (forall j, index_of "unitprice" (columns df) = Some j ->
                Forall (fun r => holds Ge0 (cell j r)) (rows out))
  /\ (forall k, index_of "stockquantity" (columns df) = Some k ->
                Forall (fun r => holds Ge0 (cell k r)) (rows out))
  /\ (forall op, ~ holds op VMissing)
  /\ (forall n, (holds Gt0 (VInt n) <-> (0 < n)%Z)
                /\ (holds Ge0 (VInt n) <-> (0 <= n)%Z)).
Proof.
  intros Hrun.
  destruct (validate_data_facts df out Hrun) as (Hc & Hin & Hid & Hprice & Hstock).
  split; [assumption|]. split; [assumption|].
  split.
  { intros i Hi. destruct (Hid i Hi) as [Hpos Hnd]. split; [exact Hpos|].
    apply (NoDup_map_inv key_form_of). now rewrite map_map. }
  split; [assumption|]. split; [assumption|].
  split.
  { intros op H. unfold holds in H. simpl in H. discriminate. }
  intros n. unfold holds. simpl. split.
  - rewrite <- Z.ltb_lt. split; [now intros [= ->] | now intros ->].
  - rewrite <- Z.leb_le. split; [now intros [= ->] | now intros ->].
Qed.

Lemma mask_at_raises (op : against_zero) (i : nat) (rs : list (list value))
    (r : list value) (s : string) :
  In r rs -> cell i r = VText s ->
  exists msg, mask_at op i rs = inl (OtherError msg).
Proof.
  induction rs as [|x rs IH]; [contradiction|].
  intros Hin Hs. simpl.
  destruct (compare_cell op (cell i x)) as [e | b] eqn:Hx.
  - unfold compare_cell in Hx. destruct (cell i x); try discriminate;
      injection Hx as <-; eauto.
  - destruct Hin as [-> | Hin].
    + rewrite Hs in Hx. discriminate.
    + destruct (IH Hin Hs) as [msg ->]. eauto.
Qed.

(** X17.  [validate_data] compares the product ids with 0 before any
    coercion: when a [productid] cell of the frame is a text, it raises
    [TypeError] and returns no frame. *)
Theorem validate_data_text_id_raises (df : DataFrame) (i : nat) (r : list value)
    (s : string) :
  index_of "productid" (columns df) = Some i ->
  In r (rows df) ->
  cell i r = VText s ->
  exists msg, PrepareProducts.validate_data df = inl (OtherError msg).
Proof.
  intros Hi Hin Hs. unfold PrepareProducts.validate_data. rewrite Hi.
  assert (Hkept : In r (rows (dropna_at i df))).
  { cbn [dropna_at rows]. apply filter_In. split; [exact Hin|]. now rewrite Hs. }
  destruct (mask_at_raises Gt0 i _ r s Hkept Hs) as [msg Hm].
  unfold filter_against_zero. rewrite Hm. eauto.
Qed.

(** ** A second validation *)

Lemma filter_against_zero_id (op : against_zero) (i : nat) (cols : list string)
    (rs : list (list value)) :
  Forall (fun r => holds op (cell i r)) rs ->
  filter_against_zero op i {| columns := cols; rows := rs |}
  = inr {| columns := cols; rows := rs |}.
Proof.
  intros Hall. unfold filter_against_zero. cbn [rows columns].
  assert (H : exists bs, mask_at op i rs = inr bs /\ select_mask bs rs = rs).
  { induction Hall as [|r rs Hr _ [bs [Hm Hsel]]]; simpl.
    - eauto.
    - unfold holds in Hr. rewrite Hr, Hm. eexists. split; [reflexivity|].
      simpl. now rewrite Hsel. }
  destruct H as [bs [-> ->]]. reflexivity.
Qed.

Lemma holds_numeric (v : value) :
  holds Ge0 v -> exists b, compare_cell Lt0 v = inr b.
Proof. unfold holds. destruct v; simpl; try discriminate; eauto. Qed.

Lemma mask_at_numeric (i : nat) (rs : list (list value)) :
  Forall (fun r => holds Ge0 (cell i r)) rs -> exists bs, mask_at Lt0 i rs = inr bs.
Proof.
  induction 1 as [|r rs Hr _ [bs Hm]]; simpl; [eauto|].
  destruct (holds_numeric _ Hr) as [b ->]. rewrite Hm. eauto.
Qed.

Lemma keep_non_negative_id (name : string) (cols : list string)
    (rs : list (list value)) :
  (forall j, index_of name cols = Some j ->
             Forall (fun r => holds Ge0 (cell j r)) rs) ->
  PrepareProducts.keep_non_negative name {| columns := cols; rows := rs |}
  = inr {| columns := cols; rows := rs |}.
Proof.
  intros H. unfold PrepareProducts.keep_non_negative. cbn [columns rows].
  destruct (index_of name cols) as [j|]; [|reflexivity].
  destruct (mask_at_numeric j rs (H j eq_refl)) as [bs ->].
  apply filter_against_zero_id. now apply H.
Qed.

Lemma holds_present (op : against_zero) (v : value) : holds op v -> is_missing v = false.
Proof. unfold holds. destruct v; simpl; try reflexivity. discriminate. Qed.

(** X18.  Validating a validated frame changes nothing and does not raise. *)
Theorem validate_data_idempotent (df out : DataFrame) :
  PrepareProducts.validate_data df = inr out ->
  PrepareProducts.validate_data out = inr out.
Proof.
  intros Hrun.
  destruct (validate_data_facts df out Hrun) as (Hc & _ & Hid & Hprice & Hstock).
  destruct out as [cols rs]. cbn [columns rows] in *.
  unfold PrepareProducts.validate_data. cbn [columns].
  assert (Hblock :
            match index_of "productid" cols with
            | None => inr {| columns := cols; rows := rs |}
            | Some i =>
                match filter_against_zero Gt0 i
                        (dropna_at i {| columns := cols; rows := rs |}) with
                | inl e => inl e
                | inr positive => drop_duplicates_subset "productid" positive
                end
            end = inr {| columns := cols; rows := rs |}).
  { destruct (index_of "productid" cols) as [i|] eqn:Hi; [|reflexivity].
    pose proof Hi as Hi0. rewrite Hc in Hi0. destruct (Hid i Hi0) as [Hpos Hnd].
    assert (Hdrop : dropna_at i {| columns := cols; rows := rs |}
                    = {| columns := cols; rows := rs |}).
    { unfold dropna_at. cbn [columns rows]. f_equal.
      apply forallb_filter_id. apply forallb_forall. intros r Hr.
      rewrite Forall_forall in Hpos. now rewrite (holds_present Gt0 _ (Hpos r Hr)). }
    rewrite Hdrop, (filter_against_zero_id Gt0 i cols rs Hpos).
    unfold drop_duplicates_subset. cbn [columns rows].
    destruct (empty {| columns := cols; rows := rs |}); [reflexivity|].
    rewrite Hi. f_equal. f_equal.
    apply (keep_first_all_kept value_eqb (cell i) key_form_of value_eqb_form);
      [exact Hnd | reflexivity]. }
  rewrite Hblock.
  rewrite keep_non_negative_id; [apply keep_non_negative_id|].
  - intros k Hk. apply Hstock. now rewrite <- Hc.
  - intros j Hj. apply Hprice. now rewrite <- Hc.
Qed.

End ValidateData.

Section ExtraRuns.
Import Frame FrameOps StateExn DataPrep Statements Runs MoreRuns.

Lemma process_files_writes_listed_names_witness :
  Forall (fun e : entry => writes_nothing (snd e))
         [("sales_data.csv", "sales_prepared.csv", clean_id)]
  /\ exists added,
       written (snd (process_files all_raw
                       [("sales_data.csv", "sales_prepared.csv", clean_id)] new_world))
       = written new_world ++ added
       /\ subseq (map fst added) ["sales_prepared.csv"]
       /\ (mkdir all_raw <> None -> added = []).
Proof.
  assert (H : Forall (fun e : entry => writes_nothing (snd e))
                     [("sales_data.csv", "sales_prepared.csv", clean_id)]).
  { constructor; [|constructor]. intros df w. reflexivity. }
  split; [exact H|].
  apply (process_files_writes_listed_names all_raw _ H new_world
           (fst (process_files all_raw
                   [("sales_data.csv", "sales_prepared.csv", clean_id)] new_world))).
  reflexivity.
Defined.

(** No customers file, a products file with its header only, a sales file
    whose prepared file cannot be written, and two cleaners that raise on
    whatever they are given: the run returns and has written nothing. *)
Lemma main_returns_witness :
  mkdir rough_raw = None
  /\ Forall (cleans_its_file rough_raw) (files_to_process clean_fails clean_fails clean_id)
  /\ exists w', main clean_fails clean_fails clean_id rough_raw new_world = (inr tt, w').
Proof.
  assert (Hc : Forall (cleans_its_file rough_raw)
                      (files_to_process clean_fails clean_fails clean_id)).
  { repeat constructor; intros df Hread He w; cbn in Hread.
    - discriminate Hread.
    - injection Hread as <-. discriminate He.
    - exists df, w. reflexivity. }
  split; [reflexivity|]. split; [exact Hc|].
  exact (main_returns clean_fails clean_fails clean_id rough_raw new_world eq_refl Hc).
Defined.

(** That run: nothing is written, and the log tells what was met. *)
Example main_rough_run :
  exists w',
    main clean_fails clean_fails clean_id rough_raw new_world = (inr tt, w')
    /\ written w' = []
    /\ map fst (log w') = [INFO; INFO; ERROR; INFO; INFO; INFO; INFO; ERROR; INFO].
Proof. eexists. split; [reflexivity|]. split; reflexivity. Qed.

Lemma cleaner_exception_stops_main_witness :
  exists w',
    main clean_fails clean_id clean_id all_raw new_world = (inl (KeyError ["JoinDate"]), w')
    /\ written w' = written new_world
    /\ (forall other_products other_sales env',
          read_csv env' (RAW_DATA_DIR ++ "customers_data.csv")%string = inr sales_raw ->
          main clean_fails other_products other_sales env' new_world
          = (inl (KeyError ["JoinDate"]), w')).
Proof.
  apply (cleaner_exception_stops_main clean_fails clean_id clean_id all_raw new_world
           sales_raw (KeyError ["JoinDate"])).
  - reflexivity.
  - reflexivity.
  - intros w1. exists w1. split; reflexivity.
Defined.

Lemma validate_data_guarantees_witness :
  PrepareProducts.validate_data products_raw
  = inr {| columns := columns products_raw;
           rows := [ [VInt 101; VText "laptop"; VInt 800; VInt 5];
                     [VInt 103; VText "cup"; VInt 4; VInt 0] ] |}
  /\ NoDup [VInt 101; VInt 103].
Proof.
  split; [reflexivity|].
  destruct (validate_data_guarantees products_raw
              {| columns := columns products_raw;
                 rows := [ [VInt 101; VText "laptop"; VInt 800; VInt 5];
                           [VInt 103; VText "cup"; VInt 4; VInt 0] ] |} eq_refl)
    as (_ & _ & Hid & _).
  exact (proj2 (Hid 0 eq_refl)).
Defined.

Lemma validate_data_text_id_raises_witness :
  exists msg, PrepareProducts.validate_data coded_products = inl (OtherError msg).
Proof.
  apply (validate_data_text_id_raises coded_products 0 [VText "P101"; VInt 800] "P101").
  - reflexivity.
  - left. reflexivity.
  - reflexivity.
Defined.

Lemma validate_data_idempotent_witness :
  PrepareProducts.validate_data
    {| columns := columns products_raw;
       rows := [ [VInt 101; VText "laptop"; VInt 800; VInt 5];
                 [VInt 103; VText "cup"; VInt 4; VInt 0] ] |}
  = inr {| columns := columns products_raw;
           rows := [ [VInt 101; VText "laptop"; VInt 800; VInt 5];
                     [VInt 103; VText "cup"; VInt 4; VInt 0] ] |}.
Proof.
  apply (validate_data_idempotent products_raw). reflexivity.
Defined.

(** The sales script on a frame with a repeated transaction, and the
    products script on a frame without its key. *)
Example remove_duplicates_runs :
  PrepareSales.remove_duplicates sales_raw
  = inr {| columns := ["TransactionID"; "SaleAmount"];
           rows := [ [VInt 550; VInt 10]; [VInt 551; VInt 20] ] |}
  /\ PrepareProducts.remove_duplicates sales_raw = inl (KeyError ["productid"]).
Proof. split; reflexivity. Qed.

(** Transaction ids that pandas takes as one key leave one record: of the
    two zeros the first, and of [1], [1.0] (written as [1 * 2^0] and as
    [4 * 2^-2]) and [True] the first; [1.5] is a key of its own. *)
Example remove_duplicates_one_key :
  PrepareSales.remove_duplicates zero_keys
  = inr {| columns := ["TransactionID"];
           rows := [ [VFloat (S754_zero false)];
                     [VFloat (S754_finite false 3 (-1))];
                     [VInt 1] ] |}.
Proof. reflexivity. Qed.

End ExtraRuns.
